(** * WooCommerceManager: the polling-and-pagination synchronisation engine

    A shallow embedding of [woocommerce_api.py].  The manager object and the
    outside world (wall clock, transport trace, batches handed to the consumer,
    sleeps) are threaded explicitly through a small state-and-exception monad.
    Python exceptions are a constructor of the outcome type, [try ... except
    Exception] is [try_catch], and the two [while] loops run on fuel, with
    [Diverge] the outcome of a run that has not finished when fuel runs out.

    The polling thread runs beside the thread that owns the manager; of what
    that other thread may do, the model has the one thing the loop looks
    at: a call of [stop_sync] while the polling thread is blocked.

    Not modelled: console output ([print]) and the thread handle kept in
    [polling_thread]. *)

From Stdlib Require Import ZArith Lia.
From stdpp Require Import base strings gmap list.

Open Scope Z_scope.
#[local] Set Warnings "-register-all".

(** ** Values *)

(** What [response.json()] can decode to.  An order record is whatever
    element the decoded array holds: the code never looks inside. *)
Inductive json : Type :=
  | JNull
  | JBool (b : bool)
  | JNum (n : Z)
  | JStr (s : string)
  | JArr (items : list json)
  | JObj (fields : list (string * json)).

(** Values stored in a query-parameter dict.  [PIso t] is the string
    [t.isoformat()], kept symbolic. *)
Inductive pyval : Type :=
  | PInt (n : Z)
  | PStr (s : string)
  | PIso (t : Z).

(** ** datetime and timedelta

    A [datetime] is its number of microseconds since 0001-01-01T00:00:00 UTC;
    [datetime.max] is 9999-12-31T23:59:59.999999.  A [timedelta] is a number
    of microseconds. *)
Definition DT_MAX : Z := 315537897599999999.
Definition minutes (n : Z) : Z := n * 60000000.
Definition days (n : Z) : Z := n * 86400000000.
Definition seconds (n : Z) : Z := n * 1000000.

Definition representable (t : Z) : bool := (0 <=? t) && (t <=? DT_MAX).

(** ** Exceptions and outcomes *)

Inductive exn : Type :=
  | ConnectionError     (* raised by the HTTP client *)
  | JSONDecodeError     (* raised by response.json() *)
  | OverflowError       (* datetime arithmetic out of range *)
  | ValueError          (* time.sleep of a negative length *)
  | ConsumerError       (* an Exception raised by the on_order_update callback *)
  | SystemExit          (* raised by sys.exit(); not an Exception *)
  | KeyboardInterrupt.  (* not an Exception *)

(** [isinstance(e, Exception)]: SystemExit and KeyboardInterrupt derive from
    BaseException only. *)
Definition is_exception (e : exn) : bool :=
  match e with
  | SystemExit | KeyboardInterrupt => false
  | _ => true
  end.

Inductive outcome (A : Type) : Type :=
  | Ret (a : A)
  | Raise (e : exn)
  | Diverge.
Arguments Ret {A} a.
Arguments Raise {A} e.
Arguments Diverge {A}.

(** ** The HTTP client (woocommerce.API) *)

Record Response := { status_code : Z; body : option json }.
  (* body = None: response.json() raises *)

Inductive ApiOutcome : Type :=
  | Fails
  | Responds (r : Response).

Record Call := { endpoint : string; query : option (gmap string pyval) }.

Record Reply := { result : ApiOutcome; elapsed : Z }.

Definition Trace : Type := list (Call * ApiOutcome).

(** A client handle answers a call knowing every call made before it, so a
    server may change its answers over time. *)
Definition ApiHandle : Type := Trace -> Call -> Reply.

(** ** The consumer callback *)

Record CallbackRun := { cb_raises : bool; cb_exn : exn; cb_elapsed : Z }.
  (* cb_exn: what is raised, when cb_raises is true *)

(** [cb earlier batch]: what happens when [batch] is delivered after the
    batches [earlier]. *)
Definition Callback : Type := list (list json) -> list json -> CallbackRun.

(** ** The manager object and the world *)

Record WooCommerceManager := {
  api : option ApiHandle;
  sync_running : bool;
  on_order_update : Callback;
  last_sync : Z
}.

Record World := {
  clock : Z;                      (* datetime.now(timezone.utc) *)
  requests : Trace;               (* every api.get so far, with its outcome *)
  delivered : list (list json);   (* every batch handed to the callback *)
  sleeps : list Z;                (* every time.sleep argument, in seconds *)
  stops : list (Z * Z)            (* every stop_sync() called by another thread
                                     while this one was blocked, with the clock
                                     readings the blocking call began and ended at *)
}.

Record State := { self : WooCommerceManager; world : World }.

Definition set_api (h : ApiHandle) (s : State) : State :=
  {| self := {| api := Some h; sync_running := sync_running (self s);
                on_order_update := on_order_update (self s);
                last_sync := last_sync (self s) |};
     world := world s |}.

Definition set_sync_running (b : bool) (s : State) : State :=
  {| self := {| api := api (self s); sync_running := b;
                on_order_update := on_order_update (self s);
                last_sync := last_sync (self s) |};
     world := world s |}.

Definition set_last_sync (t : Z) (s : State) : State :=
  {| self := {| api := api (self s); sync_running := sync_running (self s);
                on_order_update := on_order_update (self s);
                last_sync := t |};
     world := world s |}.

Definition set_clock (t : Z) (s : State) : State :=
  {| self := self s;
     world := {| clock := t; requests := requests (world s);
                 delivered := delivered (world s); sleeps := sleeps (world s);
                 stops := stops (world s) |} |}.

Definition log_request (c : Call) (o : ApiOutcome) (s : State) : State :=
  {| self := self s;
     world := {| clock := clock (world s); requests := requests (world s) ++ [(c, o)];
                 delivered := delivered (world s); sleeps := sleeps (world s);
                 stops := stops (world s) |} |}.

Definition log_delivery (batch : list json) (s : State) : State :=
  {| self := self s;
     world := {| clock := clock (world s); requests := requests (world s);
                 delivered := delivered (world s) ++ [batch];
                 sleeps := sleeps (world s); stops := stops (world s) |} |}.

Definition log_sleep (secs : Z) (s : State) : State :=
  {| self := self s;
     world := {| clock := clock (world s); requests := requests (world s);
                 delivered := delivered (world s);
                 sleeps := sleeps (world s) ++ [secs]; stops := stops (world s) |} |}.

Definition log_stop (c c' : Z) (s : State) : State :=
  {| self := self s;
     world := {| clock := clock (world s); requests := requests (world s);
                 delivered := delivered (world s); sleeps := sleeps (world s);
                 stops := stops (world s) ++ [(c, c')] |} |}.

(** ** The monad *)

Definition M (A : Type) : Type := State -> outcome A * State.

Definition ret {A} (a : A) : M A := fun s => (Ret a, s).

Definition raise {A} (e : exn) : M A := fun s => (Raise e, s).

Definition diverge {A} : M A := fun s => (Diverge, s).

Definition bind {A B} (m : M A) (k : A -> M B) : M B :=
  fun s =>
    match m s with
    | (Ret a, s') => k a s'
    | (Raise e, s') => (Raise e, s')
    | (Diverge, s') => (Diverge, s')
    end.

(** [try: m except Exception as e: h e]; what is raised outside
    [Exception] passes through. *)
Definition try_catch {A} (m : M A) (h : exn -> M A) : M A :=
  fun s =>
    match m s with
    | (Raise e, s') => if is_exception e then h e s' else (Raise e, s')
    | r => r
    end.

Notation "'let!' x ':=' m 'in' k" := (bind m (fun x => k))
  (at level 10, x name, m at level 100, k at level 200).
Notation "m >>> k" := (bind m (fun _ => k))
  (at level 90, right associativity).

Definition get_self : M WooCommerceManager := fun s => (Ret (self s), s).

(** ** What the surroundings supply *)

Record Env := {
  (* the constructor woocommerce.API(url=..., consumer_key=..., consumer_secret=...,
     version="wc/v3", timeout=30, verify_ssl=True); None: it raises *)
  API : string -> string -> string -> option ApiHandle;
  (* config.get('app', 'per_page', 100) *)
  config_per_page : Z;
  (* config.get('app', 'sync_interval', 60) *)
  config_sync_interval : Z;
  (* [stop_requested c c']: another thread calls stop_sync() while this one
     is blocked from clock reading c to clock reading c' *)
  stop_requested : Z -> Z -> bool
}.

(** ** The methods of WooCommerceManager *)

Section Manager.

Variable E : Env.

(** *** start_sync, stop_sync

    The thread that [start_sync] spawns is the run of [_polling_loop]. *)

Definition start_sync : M unit :=
  fun s => if sync_running (self s) then (Ret tt, s)
           else (Ret tt, set_sync_running true s).

Definition stop_sync : M unit :=
  fun s => (Ret tt, set_sync_running false s).

(** *** Primitive operations *)

(** The calling thread is blocked for [dt] microseconds; meanwhile another
    thread may call [stop_sync]. *)
Definition blocked (dt : Z) (s : State) : State :=
  let c := clock (world s) in
  let s' := set_clock (c + dt) s in
  if stop_requested E c (c + dt)
  then snd (stop_sync (log_stop c (c + dt) s'))
  else s'.

(** [h.get(endpoint, params=query)] *)
Definition api_get (h : ApiHandle) (c : Call) : M Response :=
  fun s =>
    let r := h (requests (world s)) c in
    let s' := blocked (elapsed r) (log_request c (result r) s) in
    match result r with
    | Fails => (Raise ConnectionError, s')
    | Responds resp => (Ret resp, s')
    end.

(** [response.json()] *)
Definition json_of (resp : Response) : M json :=
  match body resp with
  | Some j => ret j
  | None => raise JSONDecodeError
  end.

(** [datetime.now(timezone.utc)] *)
Definition now : M Z := fun s => (Ret (clock (world s)), s).

(** [t - delta] on a datetime *)
Definition dt_sub (t delta : Z) : M Z :=
  if representable (t - delta) then ret (t - delta) else raise OverflowError.

(** [time.sleep(secs)] *)
Definition sleep (secs : Z) : M unit :=
  if secs <? 0 then raise ValueError
  else fun s => (Ret tt, blocked (seconds secs) (log_sleep secs s)).

(** [self.on_order_update(orders)] *)
Definition call_on_order_update (orders : list json) : M unit :=
  fun s =>
    let run := on_order_update (self s) (delivered (world s)) orders in
    let s' := blocked (cb_elapsed run) (log_delivery orders s) in
    if cb_raises run then (Raise (cb_exn run), s') else (Ret tt, s').

(** *** __init__ *)

Definition noop_callback : Callback :=
  fun _ _ => {| cb_raises := false; cb_exn := ConsumerError; cb_elapsed := 0 |}.

Definition __init__ (cb : option Callback) (w : World) : outcome State :=
  if representable (clock w - days 1)
  then Ret {| self := {| api := None; sync_running := false;
                         on_order_update := default noop_callback cb;
                         last_sync := clock w - days 1 |};
              world := w |}
  else Raise OverflowError.

(** *** initialize *)

(** The status probe: [self.api.get("system_status")]. *)
Definition probe_call : Call := {| endpoint := "system_status"; query := None |}.

(** [self.api = API(url=base_url, ...)]: nothing is assigned when the
    constructor raises. *)
Definition new_api (base_url consumer_key consumer_secret : string) : M ApiHandle :=
  match API E base_url consumer_key consumer_secret with
  | Some h => fun s => (Ret h, set_api h s)
  | None => raise ConnectionError
  end.

Definition initialize (base_url consumer_key consumer_secret : string) : M bool :=
  try_catch
    (let! h := new_api base_url consumer_key consumer_secret in
     let! response := api_get h probe_call in
     ret (status_code response =? 200))
    (fun _ => ret false).

(** *** get_orders *)

(** How one pass through the body of [while True] ends. *)
Inductive ctl : Type := Continue | Break | ReturnNone.

Definition current_params (params : option (gmap string pyval))
    (per_page page : Z) : gmap string pyval :=
  let base : gmap string pyval :=
    <["per_page" := PInt per_page]>
      (<["page" := PInt page]>
        (<["orderby" := PStr "date"]>
          (<["order" := PStr "desc"]>
            (<["status" := PStr "any"]> ∅)))) in
  match params with
  | Some ps => ps ∪ base        (* current_params.update(params) *)
  | None => base
  end.

Definition orders_call (params : option (gmap string pyval))
    (per_page page : Z) : Call :=
  {| endpoint := "orders"; query := Some (current_params params per_page page) |}.

(** One pass: the [try] block with its [except] clause.  The locals [page]
    and [all_orders] go in and come out. *)
Definition get_orders_pass (h : ApiHandle) (params : option (gmap string pyval))
    (paginate_all : bool) (per_page page : Z) (all_orders : list json)
    : M (ctl * Z * list json) :=
  try_catch
    (let! response := api_get h (orders_call params per_page page) in
     if status_code response =? 200 then
       let! orders_page := json_of response in
       match orders_page with
       | JArr (o :: os) =>
           let all_orders := all_orders ++ o :: os in
           if negb paginate_all then ret (Break, page, all_orders)
           else if Z.of_nat (length (o :: os)) <? per_page
                then ret (Break, page, all_orders)
                else ret (Continue, page + 1, all_orders)
       | _ => ret (Break, page, all_orders)
       end
     else ret (Break, page, all_orders))
    (fun _ => ret (ReturnNone, page, all_orders)).

Fixpoint get_orders_loop (fuel : nat) (h : ApiHandle)
    (params : option (gmap string pyval)) (paginate_all : bool)
    (per_page page : Z) (all_orders : list json) : M (option (list json)) :=
  match fuel with
  | O => diverge
  | S fuel' =>
      let! r := get_orders_pass h params paginate_all per_page page all_orders in
      match r with
      | (Continue, page', all_orders') =>
          get_orders_loop fuel' h params paginate_all per_page page' all_orders'
      | (Break, _, all_orders') => ret (Some all_orders')
      | (ReturnNone, _, _) => ret None
      end
  end.

Definition get_orders (fuel : nat) (params : option (gmap string pyval))
    (paginate_all : bool) : M (option (list json)) :=
  let! me := get_self in
  match api me with
  | None => ret None
  | Some h =>
      get_orders_loop fuel h params paginate_all (config_per_page E) 1 []
  end.

(** *** fetch_orders_since, fetch_last_day_orders *)

Definition fetch_orders_since (fuel : nat) (since_timestamp : Z)
    : M (option (list json)) :=
  try_catch
    (let! t := dt_sub since_timestamp (minutes 5) in
     get_orders fuel (Some {[ "modified_after" := PIso t ]}) false)
    (fun _ => ret None).

Definition fetch_last_day_orders (fuel : nat) : M (option (list json)) :=
  try_catch
    (let! t := now in
     let! since_timestamp := dt_sub t (days 1) in
     get_orders fuel (Some {[ "after" := PIso since_timestamp ]}) true)
    (fun _ => ret None).

(** *** _polling_loop *)

(** [if updated_orders:] *)
Definition truthy (r : option (list json)) : bool :=
  match r with
  | Some (_ :: _) => true
  | _ => false
  end.

(** The [try] block of one cycle. *)
Definition polling_try (fuel : nat) : M unit :=
  let! me := get_self in
  let! updated_orders := fetch_orders_since fuel (last_sync me) in
  (if truthy updated_orders
   then call_on_order_update (default [] updated_orders) >>>
        let! t := now in
        fun s => (Ret tt, set_last_sync t s)
   else ret tt) >>>
  sleep (config_sync_interval E).

(** One cycle: the [try] block with its [except] clause. *)
Definition polling_cycle (fuel : nat) : M unit :=
  try_catch (polling_try fuel) (fun _ => sleep 60).

Fixpoint _polling_loop (cycles fuel : nat) : M unit :=
  match cycles with
  | O => diverge
  | S cycles' =>
      let! me := get_self in
      if sync_running me
      then polling_cycle fuel >>> _polling_loop cycles' fuel
      else ret tt
  end.

End Manager.

(** ** Reading a transport trace *)

(** The request raised, or its body could not be decoded when the code
    asked for it (the code decodes only a response with status 200). *)
Definition transport_fails (o : ApiOutcome) : bool :=
  match o with
  | Fails => true
  | Responds r => (status_code r =? 200) && bool_decide (body r = None)
  end.

(** The server answered with a status other than 200. *)
Definition rejected (o : ApiOutcome) : bool :=
  match o with
  | Fails => false
  | Responds r => negb (status_code r =? 200)
  end.

(** The records a successful page carries. *)
Definition page_records (o : ApiOutcome) : list json :=
  match o with
  | Fails => []
  | Responds r =>
      if status_code r =? 200 then
        match body r with
        | Some (JArr l) => l
        | _ => []
        end
      else []
  end.

(** What a pass of [get_orders] does with the outcome of its request. *)
Definition pass_result (paginate_all : bool) (per_page : Z)
    (page : Z) (all_orders : list json) (o : ApiOutcome)
    : ctl * Z * list json :=
  match o with
  | Fails => (ReturnNone, page, all_orders)
  | Responds resp =>
      if status_code resp =? 200 then
        match body resp with
        | None => (ReturnNone, page, all_orders)
        | Some (JArr (x :: xs)) =>
            if negb paginate_all then (Break, page, all_orders ++ x :: xs)
            else if Z.of_nat (length (x :: xs)) <? per_page
                 then (Break, page, all_orders ++ x :: xs)
                 else (Continue, page + 1, all_orders ++ x :: xs)
        | Some _ => (Break, page, all_orders)
        end
      else (Break, page, all_orders)
  end.

(** What the loop returns when a pass leaves it. *)
Definition loop_exit (r : ctl * Z * list json) : option (list json) :=
  match r with
  | (ReturnNone, _, _) => None
  | (_, _, all_orders) => Some all_orders
  end.

(** The traces a run of the pager can leave, from [page] on with
    [all_orders] collected, and the outcome each one ends in. *)
Inductive pager_run (params : option (gmap string pyval)) (paginate_all : bool)
    (per_page : Z)
    : Z -> list json -> Trace -> outcome (option (list json)) -> Prop :=
  | run_unfinished page all_orders :
      pager_run params paginate_all per_page page all_orders [] Diverge
  | run_returns_none page all_orders o :
      fst (fst (pass_result paginate_all per_page page all_orders o)) = ReturnNone ->
      pager_run params paginate_all per_page page all_orders
        [(orders_call params per_page page, o)] (Ret None)
  | run_breaks page all_orders o :
      fst (fst (pass_result paginate_all per_page page all_orders o)) = Break ->
      pager_run params paginate_all per_page page all_orders
        [(orders_call params per_page page, o)]
        (Ret (Some (snd (pass_result paginate_all per_page page all_orders o))))
  | run_continues page all_orders o es out :
      fst (fst (pass_result paginate_all per_page page all_orders o)) = Continue ->
      pager_run params paginate_all per_page (page + 1)
        (snd (pass_result paginate_all per_page page all_orders o)) es out ->
      pager_run params paginate_all per_page page all_orders
        ((orders_call params per_page page, o) :: es) out.

(** ** Simulated servers *)

(** A server holding [data], serving it in pages: page [k] of size [n] is
    the slice of [data] from record [(k-1)*n] on, at most [n] long; a call
    without a page number or a page size is a bad request. *)
Definition page_slice (data : list json) (n k : Z) : list json :=
  take (Z.to_nat n) (drop (Z.to_nat ((k - 1) * n)) data).

Definition paged_server (data : list json) : ApiHandle :=
  fun _ c =>
    match query c with
    | Some q =>
        match q !! "page", q !! "per_page" with
        | Some (PInt k), Some (PInt n) =>
            {| result := Responds {| status_code := 200;
                                     body := Some (JArr (page_slice data n k)) |};
               elapsed := 0 |}
        | _, _ => {| result := Responds {| status_code := 400; body := None |};
                     elapsed := 0 |}
        end
    | None => {| result := Responds {| status_code := 400; body := None |};
                 elapsed := 0 |}
    end.

(** The caller's parameters leave the paging keys to the pager. *)
Definition keeps_paging (params : option (gmap string pyval)) : Prop :=
  match params with
  | Some ps => ps !! "page" = None /\ ps !! "per_page" = None
  | None => True
  end.

(** ceil(a / b) for b > 0 *)
Definition ceil_div (a b : Z) : Z := (a + b - 1) / b.

Definition five_orders : list json := [JNum 1; JNum 2; JNum 3; JNum 4; JNum 5].
Definition four_orders : list json := [JNum 1; JNum 2; JNum 3; JNum 4].

(** A server that answers its n-th call with the n-th reply of a script,
    and fails once the script is over. *)
Definition scripted_server (script : list Reply) : ApiHandle :=
  fun trace _ =>
    default {| result := Fails; elapsed := 0 |} (script !! length trace).

Definition ok_page (l : list json) : Reply :=
  {| result := Responds {| status_code := 200; body := Some (JArr l) |};
     elapsed := 0 |}.

Definition status_only (code : Z) : Reply :=
  {| result := Responds {| status_code := code; body := None |}; elapsed := 0 |}.

Definition transport_error : Reply := {| result := Fails; elapsed := 0 |}.

Definition env0 (p : Z) : Env :=
  {| API := fun _ _ _ => None; config_per_page := p; config_sync_interval := 60;
     stop_requested := fun _ _ => false |}.

Definition st0 (h : option ApiHandle) : State :=
  {| self := {| api := h; sync_running := false; on_order_update := noop_callback;
                last_sync := days 737999 |};
     world := {| clock := days 738000; requests := []; delivered := []; sleeps := [];
                 stops := [] |} |}.

(** Every call to this client's constructor yields a handle to a server
    that is unavailable when probed and serves one order afterwards. *)
Definition unavailable_server : ApiHandle :=
  scripted_server [status_only 503; ok_page [JNum 1]].

Definition env_unavailable : Env :=
  {| API := fun _ _ _ => Some unavailable_server; config_per_page := 100;
     config_sync_interval := 60; stop_requested := fun _ _ => false |}.

(** Two full pages, then the connection drops. *)
Definition dropping_server : ApiHandle :=
  scripted_server [ok_page [JNum 1; JNum 2]; ok_page [JNum 3; JNum 4]; transport_error].

(** Two full pages, then a server error; a further page would be there. *)
Definition erring_server : ApiHandle :=
  scripted_server [ok_page [JNum 1; JNum 2]; ok_page [JNum 3; JNum 4];
                   status_only 500; ok_page [JNum 5]].

(** A shop whose probe is answered with status 200, and one that cannot
    be reached. *)
Definition env_healthy : Env :=
  {| API := fun _ _ _ => Some (scripted_server [status_only 200]);
     config_per_page := 100; config_sync_interval := 60;
     stop_requested := fun _ _ => false |}.

Definition env_unreachable : Env :=
  {| API := fun _ _ _ => Some (scripted_server [transport_error]);
     config_per_page := 100; config_sync_interval := 60;
     stop_requested := fun _ _ => false |}.

(** ** Fixtures for the polling loop *)

Definition failing_consumer : Callback :=
  fun _ _ => {| cb_raises := true; cb_exn := ConsumerError; cb_elapsed := 0 |}.


(** One order, delivered after two seconds; then the connection is gone. *)
Definition slow_server : ApiHandle :=
  scripted_server
    [{| result := Responds {| status_code := 200; body := Some (JArr [JNum 1]) |};
        elapsed := seconds 2 |}].

(** A manager whose loop has been started. *)
Definition st_running (h : ApiHandle) (cb : Callback) : State :=
  {| self := {| api := Some h; sync_running := true; on_order_update := cb;
                last_sync := days 737999 |};
     world := {| clock := days 738000; requests := []; delivered := []; sleeps := [];
                 stops := [] |} |}.

(** Another thread calls [stop_sync] ninety seconds after the start. *)
Definition env_stop_later : Env :=
  {| API := fun _ _ _ => None; config_per_page := 100; config_sync_interval := 60;
     stop_requested := fun c c' =>
       (c <? days 738000 + seconds 90) && (days 738000 + seconds 90 <=? c') |}.

(** ** Relations kept by every step of a computation *)

Definition preserves (R : State -> State -> Prop) {A : Type} (m : M A) : Prop :=
  forall s o s', m s = (o, s') -> R s s'.

(** The running flag can be lost only to a stop request made on the way:
    the log of stops only grows, by stops that were requested, and a flag
    that was set is still set unless a stop has been logged since. *)
Definition cleared_only_by_stop (E : Env) (s s' : State) : Prop :=
  exists ss,
    stops (world s') = stops (world s) ++ ss /\
    Forall (fun span => stop_requested E (fst span) (snd span) = true) ss /\
    (sync_running (self s) = true -> sync_running (self s') = true \/ ss <> []).

(** ** More readings of a trace *)

(** A status-200 response whose body decodes to something other than a
    non-empty array: [not orders_page or not isinstance(orders_page, list)]. *)
Definition ends_data (o : ApiOutcome) : bool :=
  match o with
  | Fails => false
  | Responds r =>
      (status_code r =? 200) &&
      match body r with
      | Some (JArr (_ :: _)) => false
      | Some _ => true
      | None => false
      end
  end.

(** What the caller's [params] dict says for a key, if anything. *)
Definition caller_value (params : option (gmap string pyval)) (k : string)
    : option pyval :=
  match params with
  | Some ps => ps !! k
  | None => None
  end.

(** No request and no callback takes a negative time. *)
Definition time_moves_on (s : State) : Prop :=
  (forall h trace c, api (self s) = Some h -> 0 <= elapsed (h trace c)) /\
  (forall earlier batch, 0 <= cb_elapsed (on_order_update (self s) earlier batch)).

(** One full page, then an error object sent with status 200; a further
    page would be there. *)
Definition malformed_server : ApiHandle :=
  scripted_server
    [ok_page [JNum 1; JNum 2];
     {| result := Responds {| status_code := 200;
                              body := Some (JObj [("code", JStr "rest_error")]) |};
        elapsed := 0 |};
     ok_page [JNum 3]].

(** The one request of [fetch_orders_since T]. *)
Definition since_call (per_page T : Z) : Call :=
  orders_call (Some {[ "modified_after" := PIso (T - 300000000) ]}) per_page 1.

Definition nonempty (batch : list json) : bool :=
  match batch with
  | [] => false
  | _ :: _ => true
  end.

(** The batches a trace gives rise to: the records of each page that has
    any. *)
Definition batches_of (es : Trace) : list (list json) :=
  List.filter nonempty (map (fun e => page_records (snd e)) es).

(** The [try] block of a cycle, once [self.last_sync] has been read. *)
Definition polling_try_from (E : Env) (fuel : nat) (T : Z) : M unit :=
  let! updated_orders := fetch_orders_since E fuel T in
  (if truthy updated_orders
   then call_on_order_update E (default [] updated_orders) >>>
        let! t := now in
        fun s => (Ret tt, set_last_sync t s)
   else ret tt) >>>
  sleep E (config_sync_interval E).

(** ** Two managers that differ in the running flag at most *)

Definition same_but_flag (s t : State) : Prop :=
  api (self s) = api (self t) /\
  on_order_update (self s) = on_order_update (self t) /\
  last_sync (self s) = last_sync (self t) /\
  world s = world t.

(** A computation that does the same on both. *)
Definition flag_blind {A : Type} (m : M A) : Prop :=
  forall s t, same_but_flag s t ->
    fst (m s) = fst (m t) /\ same_but_flag (snd (m s)) (snd (m t)).

(** The flag, once cleared, stays cleared. *)
Definition stays_stopped (s s' : State) : Prop :=
  sync_running (self s) = false -> sync_running (self s') = false.

(** A manager at the very start of the datetime range, as no clock will
    have it: its boundaries cannot be computed. *)
Definition st_dawn : State :=
  {| self := {| api := Some (paged_server five_orders); sync_running := false;
                on_order_update := noop_callback; last_sync := 0 |};
     world := {| clock := 0; requests := []; delivered := []; sleeps := [];
                 stops := [] |} |}.

(** A caller that asks for completed orders only. *)
Definition completed_only : gmap string pyval := {[ "status" := PStr "completed" ]}.

(** A caller that asks for pages of one record. *)
Definition one_per_page : gmap string pyval := {[ "per_page" := PInt 1 ]}.

(** The world a manager is built in. *)
Definition w0 : World :=
  {| clock := days 738000; requests := []; delivered := []; sleeps := [];
                 stops := [] |}.

(** * Facts *)

(** ** Blocking calls touch only the clock and the running flag *)

Section WorldFacts.

Variable E : Env.

Lemma blocked_requests dt s :
  requests (world (blocked E dt s)) = requests (world s).
Proof. unfold blocked. by destruct (stop_requested E _ _). Qed.

Lemma blocked_api dt s : api (self (blocked E dt s)) = api (self s).
Proof. unfold blocked. by destruct (stop_requested E _ _). Qed.

Lemma blocked_last_sync dt s :
  last_sync (self (blocked E dt s)) = last_sync (self s).
Proof. unfold blocked. by destruct (stop_requested E _ _). Qed.

Lemma blocked_callback dt s :
  on_order_update (self (blocked E dt s)) = on_order_update (self s).
Proof. unfold blocked. by destruct (stop_requested E _ _). Qed.

Lemma blocked_clock dt s :
  clock (world (blocked E dt s)) = clock (world s) + dt.
Proof. unfold blocked. by destruct (stop_requested E _ _). Qed.

Lemma blocked_sleeps dt s :
  sleeps (world (blocked E dt s)) = sleeps (world s).
Proof. unfold blocked. by destruct (stop_requested E _ _). Qed.

Lemma blocked_delivered dt s :
  delivered (world (blocked E dt s)) = delivered (world s).
Proof. unfold blocked. by destruct (stop_requested E _ _). Qed.

End WorldFacts.

(** ** The pager, one pass at a time *)

Section PagerFacts.

Variable E : Env.
Variable h : ApiHandle.
Variable params : option (gmap string pyval).
Variable paginate_all : bool.
Variable per_page : Z.

(** A pass issues exactly one request and never raises. *)
Lemma get_orders_pass_eq page all_orders s :
  let r := h (requests (world s)) (orders_call params per_page page) in
  get_orders_pass E h params paginate_all per_page page all_orders s =
  (Ret (pass_result paginate_all per_page page all_orders (result r)),
   blocked E (elapsed r)
     (log_request (orders_call params per_page page) (result r) s)).
Proof.
  cbv zeta. unfold get_orders_pass, try_catch, bind, api_get, orders_call.
  destruct (h _ _) as [[|resp] dt]; cbn; [done|].
  destruct (status_code resp =? 200); [|done].
  unfold json_of.
  destruct (body resp) as [[| | | |[|x xs]|]|]; try done.
  destruct paginate_all; cbn; [|done].
  by destruct (_ <? per_page).
Qed.

(** What a pass hands on is read off [pass_result]. *)
Lemma pass_result_continue page all_orders o :
  fst (fst (pass_result paginate_all per_page page all_orders o)) = Continue ->
  paginate_all = true /\
  rejected o = false /\ transport_fails o = false /\
  per_page <= Z.of_nat (length (page_records o)) /\
  pass_result paginate_all per_page page all_orders o =
    (Continue, page + 1, all_orders ++ page_records o).
Proof.
  destruct o as [|r]; cbn; [done|].
  destruct (status_code r =? 200); cbn; [|done].
  destruct (body r) as [[| | | |[|x xs]|]|]; cbn; try done.
  destruct paginate_all; cbn; [|done].
  destruct (Z.ltb_spec (Z.of_nat (S (length xs))) per_page); cbn; [done|].
  intros _. repeat split; try done.
Qed.

Lemma pass_result_break page all_orders o :
  fst (fst (pass_result paginate_all per_page page all_orders o)) = Break ->
  transport_fails o = false /\
  snd (pass_result paginate_all per_page page all_orders o) =
    all_orders ++ page_records o.
Proof.
  destruct o as [|r]; cbn; [done|].
  destruct (status_code r =? 200); cbn; [|by rewrite app_nil_r].
  destruct (body r) as [[| | | |[|x xs]|]|]; cbn;
    rewrite ?app_nil_r; try done.
  destruct paginate_all; cbn; [|done].
  by destruct (_ <? per_page).
Qed.

Lemma pass_result_none page all_orders o :
  fst (fst (pass_result paginate_all per_page page all_orders o)) = ReturnNone ->
  transport_fails o = true.
Proof.
  destruct o as [|r]; cbn; [done|].
  destruct (status_code r =? 200); cbn; [|done].
  destruct (body r) as [[| | | |[|x xs]|]|]; cbn; try done.
  destruct paginate_all; cbn; [|done].
  by destruct (_ <? per_page).
Qed.

(** Every run of the loop leaves one of the traces of [pager_run], and
    touches nothing of the manager but the running flag. *)
Lemma get_orders_loop_run fuel : forall page all_orders s out s',
  get_orders_loop E fuel h params paginate_all per_page page all_orders s = (out, s') ->
  exists es,
    requests (world s') = requests (world s) ++ es /\
    pager_run params paginate_all per_page page all_orders es out /\
    api (self s') = api (self s) /\
    last_sync (self s') = last_sync (self s) /\
    on_order_update (self s') = on_order_update (self s) /\
    delivered (world s') = delivered (world s) /\
    sleeps (world s') = sleeps (world s).
Proof.
  induction fuel as [|fuel IH]; intros page all_orders s out s' Hrun.
  - cbn in Hrun. injection Hrun as <- <-. exists [].
    rewrite app_nil_r. repeat split; constructor.
  - cbn [get_orders_loop] in Hrun. unfold bind in Hrun.
    rewrite get_orders_pass_eq in Hrun. cbv zeta in Hrun.
    set (r := h (requests (world s)) (orders_call params per_page page)) in *.
    set (s1 := blocked E (elapsed r) _) in *.
    assert (Hs1 : requests (world s1) =
                  requests (world s) ++ [(orders_call params per_page page, result r)])
      by (unfold s1; by rewrite blocked_requests).
    assert (Hrest : api (self s1) = api (self s) /\
                    last_sync (self s1) = last_sync (self s) /\
                    on_order_update (self s1) = on_order_update (self s) /\
                    delivered (world s1) = delivered (world s) /\
                    sleeps (world s1) = sleeps (world s)).
    { unfold s1. by rewrite blocked_api, blocked_last_sync, blocked_callback,
        blocked_delivered, blocked_sleeps. }
    destruct (pass_result paginate_all per_page page all_orders (result r))
      as [[c page'] all'] eqn:Hp.
    destruct c.
    + apply IH in Hrun as (es & Hes & Hpr & Hkeep).
      pose proof (pass_result_continue page all_orders (result r)) as Hc.
      rewrite Hp in Hc. destruct Hc as (_ & _ & _ & _ & [= -> ->]); [done|].
      exists ((orders_call params per_page page, result r) :: es). split.
      { rewrite Hes, Hs1. by rewrite <- app_assoc. }
      split.
      { apply run_continues; rewrite Hp; [done|]. exact Hpr. }
      destruct Hrest as (<- & <- & <- & <- & <-). exact Hkeep.
    + injection Hrun as <- <-.
      exists [(orders_call params per_page page, result r)]. split; [done|].
      split; [|done].
      replace all' with (snd (pass_result paginate_all per_page page all_orders (result r)))
        by (by rewrite Hp).
      apply run_breaks. by rewrite Hp.
    + injection Hrun as <- <-.
      exists [(orders_call params per_page page, result r)]. split; [done|].
      split; [|done]. apply run_returns_none. by rewrite Hp.
Qed.

End PagerFacts.

(** ** The pager as a whole *)

Section GetOrdersFacts.

Variable E : Env.

(** [get_orders] either finds no handle and returns None at once, or runs
    the loop from page 1 with nothing collected. *)
Lemma get_orders_run fuel params paginate_all s out s' :
  get_orders E fuel params paginate_all s = (out, s') ->
  (api (self s) = None /\ out = Ret None /\ s' = s) \/
  (exists h es,
     api (self s) = Some h /\
     requests (world s') = requests (world s) ++ es /\
     pager_run params paginate_all (config_per_page E) 1 [] es out /\
     api (self s') = api (self s) /\
     last_sync (self s') = last_sync (self s) /\
     on_order_update (self s') = on_order_update (self s) /\
     delivered (world s') = delivered (world s) /\
     sleeps (world s') = sleeps (world s)).
Proof.
  unfold get_orders, bind, get_self. destruct (api (self s)) as [h|] eqn:Hapi.
  - intros Hrun. right. apply get_orders_loop_run in Hrun as (es & Hes & Hpr & Hkeep).
    exists h, es. by rewrite Hapi in Hkeep.
  - intros [= <- <-]. by left.
Qed.

(** The pager lets no exception out. *)
Lemma pager_run_never_raises params paginate_all per_page page all_orders es out :
  pager_run params paginate_all per_page page all_orders es out ->
  forall e, out <> Raise e.
Proof. induction 1; done. Qed.

Lemma get_orders_never_raises fuel params paginate_all s e :
  fst (get_orders E fuel params paginate_all s) <> Raise e.
Proof.
  destruct (get_orders _ _ _ _ _) as [out s'] eqn:Hrun.
  apply get_orders_run in Hrun as [(_ & -> & _)|(h & es & _ & _ & Hpr & _)]; [done|].
  by eapply pager_run_never_raises.
Qed.

(** A trace that holds a transport failure ends in None. *)
Lemma pager_run_transport_failure params paginate_all per_page page all_orders es out :
  pager_run params paginate_all per_page page all_orders es out ->
  (exists c o, (c, o) ∈ es /\ transport_fails o = true) ->
  out = Ret None.
Proof.
  induction 1 as [page acc|page acc o Hp|page acc o Hp|page acc o es out Hp Hrun IH];
    intros (c & o' & Hin & Hfail).
  - by apply elem_of_nil in Hin.
  - done.
  - apply list_elem_of_singleton in Hin as [= -> ->].
    apply pass_result_break in Hp as [Hok _]. congruence.
  - apply elem_of_cons in Hin as [[= -> ->]|Hin].
    + apply pass_result_continue in Hp as (_ & _ & Hok & _). congruence.
    + apply IH. eauto.
Qed.

(** A trace that holds a rejected page ends there, with the records of the
    pages before it. *)
Lemma pager_run_rejected params paginate_all per_page page all_orders es out :
  pager_run params paginate_all per_page page all_orders es out ->
  forall es1 c o es2,
    es = es1 ++ (c, o) :: es2 -> rejected o = true ->
    es2 = [] /\
    out = Ret (Some (all_orders ++ concat (map (fun e => page_records (snd e)) es1))).
Proof.
  induction 1 as [page acc|page acc o Hp|page acc o Hp|page acc o es out Hp Hrun IH];
    intros es1 c o' es2 Hes Hrej.
  - by destruct es1.
  - destruct es1 as [|e [|e' es1]]; try done. injection Hes as <- <- <-.
    apply pass_result_none in Hp. destruct o as [|r]; [done|].
    cbn in Hp, Hrej. by destruct (status_code r =? 200).
  - destruct es1 as [|e [|e' es1]]; try done. injection Hes as <- <- <-.
    split; [done|]. apply pass_result_break in Hp as [_ ->].
    destruct o as [|r]; [done|]. cbn in Hrej |- *.
    by destruct (status_code r =? 200).
  - destruct es1 as [|e es1].
    + injection Hes as <- <- <-.
      apply pass_result_continue in Hp as (_ & Hok & _). congruence.
    + injection Hes as <- ->.
      apply pass_result_continue in Hp as (_ & _ & _ & _ & Hp).
      rewrite Hp in IH. cbn [snd] in IH.
      destruct (IH _ _ _ _ eq_refl Hrej) as [-> ->]. split; [done|].
      cbn [map concat snd]. by rewrite app_assoc.
Qed.

(** C4. If the transport raises while any page is being fetched (the request
    raises, or the body of a status-200 response cannot be decoded), whether
    or not earlier pages succeeded, [get_orders] returns None, which is not
    the empty list of a successful fetch, and not the records collected so far. *)
Theorem transport_failure_gives_none fuel params paginate_all s out s' es :
  get_orders E fuel params paginate_all s = (out, s') ->
  requests (world s') = requests (world s) ++ es ->
  (exists c o, (c, o) ∈ es /\ transport_fails o = true) ->
  out = Ret None /\ forall l, out <> Ret (Some l).
Proof.
  intros Hrun Hes Hfail.
  assert (out = Ret None) as ->; [|done].
  apply get_orders_run in Hrun as [(_ & _ & ->)|(h & es' & _ & Hes' & Hpr & _)].
  - apply (f_equal length) in Hes. rewrite length_app in Hes.
    destruct Hfail as (c & o & Hin & _). destruct es; [by apply elem_of_nil in Hin|].
    cbn in Hes. lia.
  - rewrite Hes in Hes'. apply app_inv_head in Hes' as <-.
    eapply pager_run_transport_failure; eauto.
Qed.

(** C5. If a page is answered with a status other than 200, [get_orders]
    makes no further request (no later page, no second try), does not raise,
    and returns the records of the pages before it, in order. *)
Theorem rejected_page_gives_earlier_pages fuel params paginate_all s out s' es1 c o es2 :
  get_orders E fuel params paginate_all s = (out, s') ->
  requests (world s') = requests (world s) ++ es1 ++ (c, o) :: es2 ->
  rejected o = true ->
  es2 = [] /\
  out = Ret (Some (concat (map (fun e => page_records (snd e)) es1))).
Proof.
  intros Hrun Hes Hrej.
  apply get_orders_run in Hrun as [(_ & _ & ->)|(h & es' & _ & Hes' & Hpr & _)].
  - apply (f_equal length) in Hes. rewrite !length_app in Hes. cbn in Hes. lia.
  - rewrite Hes in Hes'. apply app_inv_head in Hes' as <-.
    by destruct (pager_run_rejected _ _ _ _ _ _ _ Hpr _ _ _ _ eq_refl Hrej) as [-> ->].
Qed.

End GetOrdersFacts.

Lemma transport_failure_witness :
  let run := get_orders (env0 2) 9 None true (st0 (Some dropping_server)) in
  length (requests (world (snd run))) = 3%nat /\ fst run = Ret None.
Proof.
  cbv zeta. split; [by vm_compute|].
  set (run := get_orders _ _ _ _ _).
  refine (proj1 (transport_failure_gives_none (env0 2) 9 None true (st0 (Some dropping_server))
                   (fst run) (snd run) (requests (world (snd run))) _ _ _)).
  - apply surjective_pairing.
  - reflexivity.
  - exists (orders_call None 2 3), Fails. split; [|reflexivity].
    apply (list_elem_of_lookup_2 _ 2%nat). by vm_compute.
Defined.

Lemma rejected_page_witness :
  fst (get_orders (env0 2) 9 None true (st0 (Some erring_server))) =
  Ret (Some [JNum 1; JNum 2; JNum 3; JNum 4]).
Proof.
  set (run := get_orders _ _ _ _ _).
  refine (proj2 (rejected_page_gives_earlier_pages (env0 2) 9 None true
                   (st0 (Some erring_server)) (fst run) (snd run)
                   [(orders_call None 2 1, result (ok_page [JNum 1; JNum 2]));
                    (orders_call None 2 2, result (ok_page [JNum 3; JNum 4]))]
                   (orders_call None 2 3) (result (status_only 500)) [] _ _ _)).
  - apply surjective_pairing.
  - by vm_compute.
  - reflexivity.
Defined.

(** ** initialize *)

Section InitializeFacts.

Variable E : Env.

(** C9. [initialize] never raises; it returns true exactly when the client
    was constructed and the status probe was answered with status 200, and
    false when the constructor or the probe raises. *)
Theorem initialize_reports_probe url key secret s :
  exists b s',
    initialize E url key secret s = (Ret b, s') /\
    (b = true <->
     exists h r, API E url key secret = Some h /\
                 result (h (requests (world s)) probe_call) = Responds r /\
                 status_code r = 200) /\
    (API E url key secret = None -> b = false) /\
    (forall h, API E url key secret = Some h ->
               result (h (requests (world s)) probe_call) = Fails -> b = false).
Proof.
  unfold initialize, try_catch, bind, new_api, api_get.
  destruct (API E url key secret) as [h|]; cbn.
  - destruct (result (h (requests (world s)) probe_call)) as [|r] eqn:Hr; cbn.
    + eexists false, _. split; [done|]. split; [|done].
      split; [done|]. intros (h' & r & [= <-] & Hr' & _). congruence.
    + eexists (status_code r =? 200), _. split; [done|]. split.
      * rewrite Z.eqb_eq. split.
        -- intros H200. by exists h, r.
        -- intros (h' & r' & [= <-] & Hr' & H200). congruence.
      * split; [done|]. intros h' [= <-]. congruence.
  - eexists false, _. split; [done|]. split; [|done].
    split; [done|]. by intros (h & r & ? & _).
Qed.

(** After a construction that succeeded, the handle is stored whatever the
    probe said. *)
Lemma initialize_stores_handle url key secret s out s' h :
  API E url key secret = Some h ->
  initialize E url key secret s = (out, s') ->
  api (self s') = Some h.
Proof.
  unfold initialize, try_catch, bind, new_api, api_get. intros ->. cbn.
  destruct (result (h _ _)); intros [= <- <-]; by rewrite blocked_api.
Qed.

(** With a handle stored, [get_orders] starts by asking for page 1. *)
Lemma get_orders_first_request fuel params paginate_all s h :
  api (self s) = Some h ->
  exists es,
    requests (world (snd (get_orders E (S fuel) params paginate_all s))) =
    requests (world s) ++
      (orders_call params (config_per_page E) 1,
       result (h (requests (world s)) (orders_call params (config_per_page E) 1))) :: es.
Proof.
  intros Hapi.
  destruct (get_orders E (S fuel) params paginate_all s) as [out s'] eqn:Hrun.
  unfold get_orders, bind, get_self in Hrun. rewrite Hapi in Hrun.
  cbn [get_orders_loop] in Hrun. unfold bind in Hrun.
  rewrite get_orders_pass_eq in Hrun. cbv zeta in Hrun.
  set (o := result _) in *. set (s1 := blocked _ _ _) in *.
  assert (Hs1 : requests (world s1) =
                requests (world s) ++ [(orders_call params (config_per_page E) 1, o)])
    by (unfold s1; by rewrite blocked_requests).
  destruct (pass_result _ _ _ _ _) as [[[] page'] all'].
  - apply get_orders_loop_run in Hrun as (es & Hes & _). exists es. cbn [snd].
    by rewrite Hes, Hs1, <- app_assoc.
  - injection Hrun as <- <-. by exists [].
  - injection Hrun as <- <-. by exists [].
Qed.

(** C10. When [initialize] has constructed the client and then returns
    false, the handle stays in [self.api]; a later [get_orders] does not
    stop at the missing-handle check and sends a request for page 1. *)
Theorem failed_initialize_keeps_handle url key secret s s' h :
  API E url key secret = Some h ->
  initialize E url key secret s = (Ret false, s') ->
  api (self s') = Some h /\
  forall fuel params paginate_all, exists o es,
    requests (world (snd (get_orders E (S fuel) params paginate_all s'))) =
    requests (world s') ++ (orders_call params (config_per_page E) 1, o) :: es.
Proof.
  intros Hnew Hinit.
  pose proof (initialize_stores_handle _ _ _ _ _ _ _ Hnew Hinit) as Hapi.
  split; [done|]. intros fuel params paginate_all.
  destruct (get_orders_first_request fuel params paginate_all s' h Hapi) as [es Hes].
  eauto.
Qed.

End InitializeFacts.

Lemma failed_initialize_witness :
  let s' := snd (initialize env_unavailable "https://shop.example" "ck" "cs" (st0 None)) in
  api (self s') = Some unavailable_server /\
  exists o es,
    requests (world (snd (get_orders env_unavailable 1 None false s'))) =
    requests (world s') ++ (orders_call None 100 1, o) :: es.
Proof.
  cbv zeta.
  destruct (failed_initialize_keeps_handle env_unavailable
              "https://shop.example" "ck" "cs" (st0 None)
              (snd (initialize env_unavailable "https://shop.example" "ck" "cs" (st0 None)))
              unavailable_server) as [Hapi Hreq].
  - reflexivity.
  - by vm_compute.
  - split; [exact Hapi|]. exact (Hreq 0%nat None false).
Defined.

(** ** The two boundary computations *)

Section BoundaryFacts.

Variable E : Env.

(** The world and the manager apart from the watermark do not depend on
    the watermark. *)
Lemma blocked_set_last_sync w dt s :
  blocked E dt (set_last_sync w s) = set_last_sync w (blocked E dt s).
Proof. unfold blocked. cbn. by destruct (stop_requested E _ _). Qed.

Lemma get_orders_loop_set_last_sync w h params paginate_all per_page fuel :
  forall page all_orders s,
    get_orders_loop E fuel h params paginate_all per_page page all_orders
      (set_last_sync w s) =
    (fst (get_orders_loop E fuel h params paginate_all per_page page all_orders s),
     set_last_sync w
       (snd (get_orders_loop E fuel h params paginate_all per_page page all_orders s))).
Proof.
  induction fuel as [|fuel IH]; intros page all_orders s; [done|].
  cbn [get_orders_loop]. unfold bind. rewrite !get_orders_pass_eq. cbv zeta.
  change (requests (world (set_last_sync w s))) with (requests (world s)).
  set (r := h _ _).
  change (log_request ?c ?o (set_last_sync w s))
    with (set_last_sync w (log_request c o s)).
  rewrite blocked_set_last_sync.
  destruct (pass_result _ _ _ _ _) as [[[] page'] all']; [apply IH|done|done].
Qed.

Lemma get_orders_set_last_sync w fuel params paginate_all s :
  get_orders E fuel params paginate_all (set_last_sync w s) =
  (fst (get_orders E fuel params paginate_all s),
   set_last_sync w (snd (get_orders E fuel params paginate_all s))).
Proof.
  unfold get_orders, bind, get_self. cbn [self set_last_sync api].
  destruct (api (self s)); [apply get_orders_loop_set_last_sync|done].
Qed.

(** Every request of a run is a request for some page of "orders" with the
    caller's parameters laid over the defaults. *)
Lemma pager_run_calls params paginate_all per_page page all_orders es out :
  pager_run params paginate_all per_page page all_orders es out ->
  forall c o, (c, o) ∈ es -> exists k, c = orders_call params per_page k.
Proof.
  induction 1 as [page acc|page acc o Hp|page acc o Hp|page acc o es out Hp Hrun IH];
    intros c o' Hin.
  - by apply elem_of_nil in Hin.
  - apply list_elem_of_singleton in Hin as [= -> ->]. eauto.
  - apply list_elem_of_singleton in Hin as [= -> ->]. eauto.
  - apply elem_of_cons in Hin as [[= -> ->]|Hin]; eauto.
Qed.

(** With [paginate_all] false the loop is left after its first pass. *)
Lemma get_orders_first_page_only fuel params s h :
  api (self s) = Some h ->
  let c := orders_call params (config_per_page E) 1 in
  let r := h (requests (world s)) c in
  get_orders E (S fuel) params false s =
  (Ret (loop_exit (pass_result false (config_per_page E) 1 [] (result r))),
   blocked E (elapsed r) (log_request c (result r) s)).
Proof.
  intros Hapi. cbv zeta. unfold get_orders, bind, get_self. rewrite Hapi.
  cbn [get_orders_loop]. unfold bind. rewrite get_orders_pass_eq. cbv zeta.
  set (o := result _). destruct o as [|r]; cbn; [done|].
  destruct (status_code r =? 200); [|done].
  by destruct (body r) as [[| | | |[|x xs]|]|].
Qed.

(** C7. For a watermark T whose shift by five minutes is a datetime, and a
    manager holding a client handle, [fetch_orders_since T] sends one request
    and no more, whatever the server holds: page 1 of "orders", with
    [modified_after] set to T minus 5 minutes (300000000 microseconds). *)
Theorem fetch_orders_since_one_request fuel T s h :
  api (self s) = Some h ->
  representable (T - 300000000) = true ->
  let q := <["modified_after" := PIso (T - 300000000)]>
             (current_params None (config_per_page E) 1) in
  let c := {| endpoint := "orders"; query := Some q |} in
  exists out s',
    fetch_orders_since E (S fuel) T s = (Ret out, s') /\
    requests (world s') =
    requests (world s) ++ [(c, result (h (requests (world s)) c))] /\
    q !! "page" = Some (PInt 1).
Proof.
  intros Hapi Hrep. cbv zeta.
  unfold fetch_orders_since, try_catch, bind, dt_sub.
  change (minutes 5) with 300000000. rewrite Hrep. cbn [ret].
  rewrite (get_orders_first_page_only fuel _ s h Hapi). cbv zeta.
  unfold orders_call, current_params at 1 2 3.
  rewrite <- insert_union_singleton_l.
  eexists _, _. split; [done|]. split; [by rewrite blocked_requests|].
  unfold current_params.
  rewrite lookup_insert_ne by done. rewrite lookup_insert_ne by done.
  apply lookup_insert_eq.
Qed.

(** C8. Whenever now minus one day is a datetime, [fetch_last_day_orders] is
    [get_orders] with [after] set to now minus 24 hours (86400000000
    microseconds) and [paginate_all] true; every request it sends carries
    that bound; and the watermark plays no part in it. *)
Theorem fetch_last_day_orders_window fuel s :
  representable (clock (world s) - 86400000000) = true ->
  let bound := PIso (clock (world s) - 86400000000) in
  let run := fetch_last_day_orders E fuel s in
  run = get_orders E fuel (Some {[ "after" := bound ]}) true s /\
  (forall c o,
     (c, o) ∈ drop (length (requests (world s))) (requests (world (snd run))) ->
     endpoint c = "orders" /\
     exists q, query c = Some q /\ q !! "after" = Some bound) /\
  (forall w, fetch_last_day_orders E fuel (set_last_sync w s) =
             (fst run, set_last_sync w (snd run))).
Proof.
  intros Hrep. cbv zeta.
  assert (Heq : forall s0, clock (world s0) = clock (world s) ->
            fetch_last_day_orders E fuel s0 =
            get_orders E fuel
              (Some {[ "after" := PIso (clock (world s) - 86400000000) ]}) true s0).
  { intros s0 Hclock.
    unfold fetch_last_day_orders, try_catch, bind, now, dt_sub.
    change (days 1) with 86400000000. rewrite Hclock, Hrep. cbn [ret].
    pose proof (get_orders_never_raises E fuel
      (Some {[ "after" := PIso (clock (world s) - 86400000000) ]}) true s0) as Hnr.
    destruct (get_orders _ _ _ _ _) as [[| |] s1]; [done| |done].
    by destruct (Hnr e). }
  split; [by apply Heq|]. split.
  - rewrite (Heq s eq_refl). intros c o Hin.
    destruct (get_orders _ _ _ _ _) as [out s1] eqn:Hrun. cbn [snd] in Hin.
    apply get_orders_run in Hrun as [(_ & _ & ->)|(h & es & _ & Hes & Hpr & _)].
    + rewrite drop_all in Hin. by apply elem_of_nil in Hin.
    + rewrite Hes, drop_app_length in Hin.
      destruct (pager_run_calls _ _ _ _ _ _ _ Hpr c o Hin) as [k ->].
      split; [done|]. eexists. split; [done|].
      unfold current_params. apply lookup_union_Some_l, lookup_singleton_eq.
  - intros w. rewrite (Heq (set_last_sync w s) eq_refl), (Heq s eq_refl).
    apply get_orders_set_last_sync.
Qed.

End BoundaryFacts.

Lemma fetch_orders_since_witness :
  let s := st0 (Some (paged_server five_orders)) in
  let s' := snd (fetch_orders_since (env0 2) 1 (days 738000) s) in
  length (requests (world s')) = 1%nat.
Proof.
  cbv zeta.
  destruct (fetch_orders_since_one_request (env0 2) 0 (days 738000)
              (st0 (Some (paged_server five_orders))) (paged_server five_orders)
              eq_refl eq_refl) as (out & s' & Hrun & Hreq & _).
  rewrite Hrun. cbn [snd]. rewrite Hreq. reflexivity.
Defined.

Lemma fetch_last_day_orders_witness :
  let s := st0 (Some (paged_server five_orders)) in
  fetch_last_day_orders (env0 2) 9 s =
  get_orders (env0 2) 9 (Some {[ "after" := PIso (days 737999) ]}) true s.
Proof.
  exact (proj1 (fetch_last_day_orders_window (env0 2) 9
                  (st0 (Some (paged_server five_orders))) eq_refl)).
Defined.

(** ** Paging through a dataset *)

Section DatasetFacts.

Variable E : Env.
Variable data : list json.
Variable p : nat.
Variable params : option (gmap string pyval).

Hypothesis p_pos : (1 <= p)%nat.
Hypothesis per_page_p : config_per_page E = Z.of_nat p.
Hypothesis params_ok : keeps_paging params.

(** What the server answers when asked for page [S k]. *)
Lemma paged_server_reply trace k :
  paged_server data trace (orders_call params (Z.of_nat p) (Z.of_nat (S k))) =
  ok_page (take p (drop (k * p) data)).
Proof.
  unfold paged_server, orders_call, current_params. cbn [query].
  assert (Hlook : forall base : gmap string pyval,
            match params with Some ps => ps ∪ base | None => base end !! "page" =
              base !! "page" /\
            match params with Some ps => ps ∪ base | None => base end !! "per_page" =
              base !! "per_page").
  { intros base. destruct params as [ps|]; [|done]. destruct params_ok as [Hpg Hpp].
    split; by apply lookup_union_r. }
  destruct (Hlook (<["per_page" := PInt (Z.of_nat p)]>
                     (<["page" := PInt (Z.of_nat (S k))]>
                        (<["orderby" := PStr "date"]>
                           (<["order" := PStr "desc"]>
                              (<["status" := PStr "any"]> ∅)))))) as [-> ->].
  rewrite lookup_insert_ne by done. rewrite !lookup_insert_eq.
  unfold page_slice, ok_page.
  replace (Z.of_nat (S k) - 1) with (Z.of_nat k) by lia.
  by rewrite <- Nat2Z.inj_mul, !Nat2Z.id.
Qed.

(** The loop at page [S k], with the first [k] pages collected. *)
Lemma get_orders_loop_dataset fuel : forall k all_orders rest s,
  data = all_orders ++ rest ->
  length all_orders = (k * p)%nat ->
  (length rest / p < fuel)%nat ->
  exists s',
    get_orders_loop E fuel (paged_server data) params true (Z.of_nat p)
      (Z.of_nat (S k)) all_orders s = (Ret (Some data), s') /\
    requests (world s') =
    requests (world s) ++
      map (fun i => (orders_call params (Z.of_nat p) (Z.of_nat i),
                     result (ok_page (take p (drop ((i - 1) * p) data)))))
          (seq (S k) (length rest / p + 1)).
Proof.
  induction fuel as [|fuel IH]; intros k acc rest s Hdata Hacc Hfuel; [lia|].
  cbn [get_orders_loop]. unfold bind. rewrite get_orders_pass_eq. cbv zeta.
  rewrite paged_server_reply.
  assert (Hdrop : drop (k * p) data = rest)
    by (rewrite Hdata; by apply drop_app_length').
  rewrite Hdrop. cbn [ok_page result elapsed pass_result status_code body].
  change (200 =? 200) with true. cbv iota.
  destruct (decide (length rest < p)%nat) as [Hshort|Hfull].
  - (* the last page: short, maybe empty *)
    rewrite (take_ge rest p) by lia.
    rewrite (Nat.div_small _ _ Hshort). cbn [seq map Nat.add].
    replace (S k - 1)%nat with k by lia. rewrite Hdrop, (take_ge rest p) by lia.
    destruct rest as [|x xs].
    + rewrite app_nil_r in Hdata. subst acc. eexists. split; [done|].
      by rewrite blocked_requests.
    + cbn [negb]. destruct (Z.ltb_spec (Z.of_nat (length (x :: xs))) (Z.of_nat p)); [|lia].
      subst data. eexists. split; [done|]. by rewrite blocked_requests.
  - (* a full page: go on *)
    assert (Hlen : length (take p rest) = p) by (rewrite length_take; lia).
    destruct (take p rest) as [|x xs] eqn:Htake; [cbn in Hlen; lia|].
    cbn [negb]. destruct (Z.ltb_spec (Z.of_nat (length (x :: xs))) (Z.of_nat p)); [lia|].
    replace (Z.of_nat (S k) + 1) with (Z.of_nat (S (S k))) by lia.
    assert (Hdiv : (length rest / p = S (length (drop p rest) / p))%nat).
    { rewrite length_drop.
      replace (length rest) with (1 * p + (length rest - p))%nat at 1 by lia.
      rewrite Nat.div_add_l by lia. lia. }
    edestruct (IH (S k) (acc ++ x :: xs) (drop p rest)) as (s' & Hrun & Hreq).
    + rewrite <- Htake, <- app_assoc, take_drop. exact Hdata.
    + rewrite length_app, Hlen. lia.
    + lia.
    + exists s'. split; [exact Hrun|]. rewrite Hreq, blocked_requests. cbn [log_request world requests].
      rewrite Hdiv, <- app_assoc. cbn [seq map Nat.add app].
      replace (S k - 1)%nat with k by lia. by rewrite Hdrop, Htake.
Qed.

(** A run that returns a list returns the records of its pages, in the
    order the pages were asked for. *)
Lemma pager_run_returns_concat paginate_all per_page page all_orders es out :
  pager_run params paginate_all per_page page all_orders es out ->
  forall l, out = Ret (Some l) ->
  l = all_orders ++ concat (map (fun e => page_records (snd e)) es).
Proof.
  induction 1 as [page acc|page acc o Hp|page acc o Hp|page acc o es out Hp Hrun IH];
    intros l Hout; try done.
  - injection Hout as <-. apply pass_result_break in Hp as [_ ->].
    cbn. by rewrite app_nil_r.
  - apply pass_result_continue in Hp as (_ & _ & _ & _ & Hp).
    rewrite Hp in IH. cbn [snd] in IH. rewrite (IH l Hout). cbn [map concat snd].
    by rewrite app_assoc.
Qed.

Lemma ceil_div_inexact (n : nat) :
  (n mod p <> 0)%nat ->
  ceil_div (Z.of_nat n) (Z.of_nat p) = Z.of_nat (n / p + 1).
Proof.
  intros Hr. unfold ceil_div.
  pose proof (Nat.div_mod_eq n p) as Hn.
  pose proof (Nat.mod_upper_bound n p ltac:(lia)) as Hlt.
  symmetry. apply Z.div_unique with (Z.of_nat (n mod p) - 1); [lia|].
  rewrite Hn at 1. rewrite Nat2Z.inj_add, Nat2Z.inj_mul. lia.
Qed.

(** C2, as the code has it. A server holding [data] serves it in pages of
    [p] records (p at least 1; the caller's parameters leave "page" and
    "per_page" alone).  With [paginate_all] true and fuel for the run,
    [get_orders] returns [data], which is the records of the pages it
    received in the order received, and sends floor(total / p) + 1 requests,
    for pages 1, 2, ... in turn.  That count is ceil(total / p) when total is
    not a multiple of p. *)
Theorem paginate_all_on_dataset fuel s :
  api (self s) = Some (paged_server data) ->
  (length data / p < fuel)%nat ->
  exists s' es,
    get_orders E fuel params true s = (Ret (Some data), s') /\
    requests (world s') = requests (world s) ++ es /\
    es = map (fun i => (orders_call params (Z.of_nat p) (Z.of_nat i),
                        result (ok_page (take p (drop ((i - 1) * p) data)))))
             (seq 1 (length data / p + 1)) /\
    data = concat (map (fun e => page_records (snd e)) es) /\
    length es = (length data / p + 1)%nat /\
    ((length data mod p <> 0)%nat ->
     Z.of_nat (length es) = ceil_div (Z.of_nat (length data)) (Z.of_nat p)).
Proof.
  intros Hapi Hfuel.
  destruct (get_orders_loop_dataset fuel 0 [] data s eq_refl eq_refl Hfuel)
    as (s' & Hrun & Hreq).
  assert (Hget : get_orders E fuel params true s = (Ret (Some data), s')).
  { unfold get_orders, bind, get_self. by rewrite Hapi, per_page_p. }
  eexists s', _. split; [exact Hget|]. split; [exact Hreq|]. split; [done|].
  assert (Hlen : forall A (f : nat -> A) a n, length (map f (seq a n)) = n)
    by (intros; by rewrite length_map, length_seq).
  split; [|split; [apply Hlen|]].
  - apply get_orders_run in Hget as [(Hnone & _)|(h & es & _ & Hes & Hpr & _)];
      [congruence|].
    rewrite Hreq in Hes. apply app_inv_head in Hes as <-.
    rewrite per_page_p in Hpr.
    apply (pager_run_returns_concat _ _ _ _ _ _ Hpr data eq_refl).
  - intros Hr. by rewrite Hlen, ceil_div_inexact.
Qed.

End DatasetFacts.

Lemma paginate_all_witness :
  let run := get_orders (env0 2) 3 None true (st0 (Some (paged_server five_orders))) in
  fst run = Ret (Some five_orders) /\
  length (requests (world (snd run))) = 3%nat /\
  ceil_div 5 2 = 3.
Proof.
  cbv zeta.
  destruct (paginate_all_on_dataset (env0 2) five_orders 2 None
              (le_S 1 1 (le_n 1)) eq_refl I 3
              (st0 (Some (paged_server five_orders))) eq_refl (le_n 3))
    as (s' & es & Hrun & Hreq & _ & _ & Hlen & _).
  rewrite Hrun. cbn [fst snd]. rewrite Hreq, length_app, Hlen. by vm_compute.
Defined.

(** C2, the count as stated: four records in pages of two are two full pages
    and then an empty one, and fetching them takes three requests, not
    ceil(4 / 2) = 2. *)
Lemma exact_multiple_costs_one_more_request :
  let run := get_orders (env0 2) 9 None true (st0 (Some (paged_server four_orders))) in
  fst run = Ret (Some four_orders) /\
  map (fun e => page_records (snd e)) (requests (world (snd run))) =
    [[JNum 1; JNum 2]; [JNum 3; JNum 4]; []] /\
  Z.of_nat (length (requests (world (snd run)))) = 3 /\
  ceil_div (Z.of_nat (length four_orders)) 2 = 2 /\
  Z.of_nat (length (requests (world (snd run)))) <>
    ceil_div (Z.of_nat (length four_orders)) 2.
Proof. by vm_compute. Qed.

(** ** One polling cycle *)

Section CycleFacts.

Variable E : Env.


Lemma fetch_orders_since_keeps fuel T s r s1 :
  fetch_orders_since E fuel T s = (r, s1) ->
  last_sync (self s1) = last_sync (self s) /\
  on_order_update (self s1) = on_order_update (self s) /\
  delivered (world s1) = delivered (world s) /\
  sleeps (world s1) = sleeps (world s).
Proof.
  unfold fetch_orders_since, try_catch, bind, dt_sub.
  destruct (representable _); cbn [ret raise]; [|by intros [= <- <-]].
  pose proof (get_orders_never_raises E fuel
    (Some {[ "modified_after" := PIso (T - minutes 5) ]}) false s) as Hnr.
  destruct (get_orders _ _ _ _ _) as [out s2] eqn:Hrun. cbn [fst] in Hnr.
  apply get_orders_run in Hrun as [(_ & _ & ->)|(h & es & _ & _ & _ & _ & Hkeep)].
  - destruct out as [a|e|]; [|by destruct (Hnr e)|]; by intros [= <- <-].
  - destruct out as [a|e|]; [|by destruct (Hnr e)|]; by intros [= <- <-].
Qed.




(** C3, as the code has it. In a cycle whose fetch yields a non-empty batch
    and whose consumer callback returns normally, the cycle ends normally and
    the watermark becomes the clock reading taken once the callback has
    returned: the reading at the end of the fetch plus the time the callback
    took. *)
Theorem watermark_set_after_callback fuel s batch s1 :
  fetch_orders_since E fuel (last_sync (self s)) s = (Ret (Some batch), s1) ->
  batch <> [] ->
  cb_raises (on_order_update (self s) (delivered (world s)) batch) = false ->
  exists s',
    polling_cycle E fuel s = (Ret tt, s') /\
    last_sync (self s') =
    clock (world s1) + cb_elapsed (on_order_update (self s) (delivered (world s)) batch).
Proof.
  intros Hfetch Hne Hcb.
  destruct (fetch_orders_since_keeps _ _ _ _ _ Hfetch) as (Hls & Hcbk & Hdel & Hsl).
  unfold polling_cycle, try_catch, polling_try, bind, get_self. rewrite Hfetch.
  destruct batch as [|x xs]; [done|]. cbn [truthy default from_option id].
  unfold call_on_order_update, now, sleep. rewrite Hcbk, Hdel, Hcb.
  set (run := on_order_update _ _ _).
  destruct (config_sync_interval E <? 0); cbn [raise].
  - eexists. split; [done|].
    rewrite blocked_last_sync. cbn. by rewrite blocked_clock.
  - eexists. split; [done|].
    rewrite blocked_last_sync. cbn. by rewrite blocked_clock.
Qed.

End CycleFacts.


Lemma watermark_set_witness :
  let s := st_running slow_server noop_callback in
  let s' := snd (polling_cycle (env0 100) 1 s) in
  last_sync (self s') = days 738000 + seconds 2.
Proof.
  cbv zeta.
  destruct (watermark_set_after_callback (env0 100) 1
              (st_running slow_server noop_callback) [JNum 1]
              (snd (fetch_orders_since (env0 100) 1 (days 737999)
                      (st_running slow_server noop_callback))))
    as (s' & Hrun & Hls).
  - by vm_compute.
  - done.
  - reflexivity.
  - rewrite Hrun. cbn [snd]. rewrite Hls. by vm_compute.
Defined.

(** C3, as stated: the order arrives two seconds into the cycle, the
    callback returns normally, and the watermark becomes the start of the
    cycle plus two seconds, not the start of the cycle. *)
Lemma watermark_is_not_cycle_start :
  let s := st_running slow_server noop_callback in
  let run := polling_cycle (env0 100) 1 s in
  fst run = Ret tt /\
  delivered (world (snd run)) = [[JNum 1]] /\
  last_sync (self (snd run)) = clock (world s) + seconds 2 /\
  last_sync (self (snd run)) <> clock (world s).
Proof. by vm_compute. Qed.

(** ** Relations kept along a computation *)

Section PreserveFacts.

Variable R : State -> State -> Prop.
Hypothesis R_refl : forall s, R s s.
Hypothesis R_trans : forall s1 s2 s3, R s1 s2 -> R s2 s3 -> R s1 s3.

Lemma preserves_ret {A} (a : A) : preserves R (ret a).
Proof. intros s o s' [= <- <-]. apply R_refl. Qed.

Lemma preserves_raise {A} e : preserves R (@raise A e).
Proof. intros s o s' [= <- <-]. apply R_refl. Qed.

Lemma preserves_diverge {A} : preserves R (@diverge A).
Proof. intros s o s' [= <- <-]. apply R_refl. Qed.

Lemma preserves_bind {A B} (m : M A) (k : A -> M B) :
  preserves R m -> (forall a, preserves R (k a)) -> preserves R (bind m k).
Proof.
  intros Hm Hk s o s'. unfold bind.
  destruct (m s) as [[a|e|] s1] eqn:Hms; intros Hrun.
  - eapply R_trans; [by eapply Hm|by eapply Hk].
  - injection Hrun as <- <-. by eapply Hm.
  - injection Hrun as <- <-. by eapply Hm.
Qed.

Lemma preserves_try_catch {A} (m : M A) (handler : exn -> M A) :
  preserves R m -> (forall e, preserves R (handler e)) ->
  preserves R (try_catch m handler).
Proof.
  intros Hm Hh s o s'. unfold try_catch.
  destruct (m s) as [[a|e|] s1] eqn:Hms; intros Hrun.
  - injection Hrun as <- <-. by eapply Hm.
  - destruct (is_exception e).
    + eapply R_trans; [by eapply Hm|by eapply Hh].
    + injection Hrun as <- <-. by eapply Hm.
  - injection Hrun as <- <-. by eapply Hm.
Qed.

End PreserveFacts.

(** ** The polling loop *)

Section LoopFacts.

Variable E : Env.

Lemma cleared_only_by_stop_refl s : cleared_only_by_stop E s s.
Proof. exists []. rewrite app_nil_r. split; [done|]. split; [done|]. by left. Qed.

Lemma cleared_only_by_stop_trans s1 s2 s3 :
  cleared_only_by_stop E s1 s2 -> cleared_only_by_stop E s2 s3 ->
  cleared_only_by_stop E s1 s3.
Proof.
  intros (ss & Hss & Hreq & Hflag) (ss' & Hss' & Hreq' & Hflag').
  exists (ss ++ ss'). split; [by rewrite Hss', Hss, app_assoc|].
  split; [by apply Forall_app|].
  intros Hs1. destruct (Hflag Hs1) as [Hs2|Hne].
  - destruct (Hflag' Hs2) as [Hs3|Hne']; [by left|right]. by destruct ss, ss'.
  - right. by destruct ss.
Qed.

Lemma blocked_cleared_only_by_stop dt s s0 :
  sync_running (self s) = sync_running (self s0) ->
  stops (world s) = stops (world s0) ->
  cleared_only_by_stop E s0 (blocked E dt s).
Proof.
  intros Hflag Hstops. unfold blocked.
  destruct (stop_requested E _ _) eqn:Hstop.
  - exists [(clock (world s), clock (world s) + dt)]. cbn. rewrite Hstops.
    split; [done|]. split; [by repeat constructor|]. by right.
  - exists []. cbn. rewrite app_nil_r, Hstops, Hflag.
    split; [done|]. split; [done|]. by left.
Qed.

#[local] Hint Resolve cleared_only_by_stop_refl cleared_only_by_stop_trans : core.

Lemma api_get_flag h c : preserves (cleared_only_by_stop E) (api_get E h c).
Proof.
  intros s o s'. unfold api_get.
  destruct (result _); intros [= <- <-]; by apply blocked_cleared_only_by_stop.
Qed.










End LoopFacts.



(** ** Scenarios *)

(** A fresh manager: no handle, not running, watermark one day back. *)
Example init_state :
  let w := {| clock := days 738000; requests := []; delivered := []; sleeps := [];
                 stops := [] |} in
  __init__ None w = Ret (st0 None) /\
  start_sync (set_api slow_server (st0 None)) =
    (Ret tt, st_running slow_server noop_callback).
Proof. by vm_compute. Qed.

(** [start_sync] on a running manager changes nothing; [stop_sync] clears
    the flag. *)
Example start_stop s :
  sync_running (self s) = true ->
  start_sync s = (Ret tt, s) /\ sync_running (self (snd (stop_sync s))) = false.
Proof. intros Hs. unfold start_sync. by rewrite Hs. Qed.

(** A probe answered with status 200: [initialize] returns true. *)
Example initialize_healthy :
  fst (initialize env_healthy "https://shop.example" "ck" "cs" (st0 None)) = Ret true.
Proof. reflexivity. Qed.

(** A probe that raises a connection error: [initialize] returns false. *)
Example initialize_unreachable :
  fst (initialize env_unreachable "https://shop.example" "ck" "cs" (st0 None)) = Ret false.
Proof. reflexivity. Qed.

(** Without a handle [get_orders] returns None and sends nothing. *)
Example get_orders_uninitialized :
  get_orders (env0 100) 9 None true (st0 None) = (Ret None, st0 None).
Proof. reflexivity. Qed.

(** An empty first page is a successful fetch of nothing. *)
Example get_orders_empty_shop :
  fst (get_orders (env0 100) 9 None true (st0 (Some (paged_server [])))) = Ret (Some []).
Proof. by vm_compute. Qed.

(** A server that never runs out of full pages keeps the pager going. *)
Example get_orders_endless :
  fst (get_orders (env0 1) 50 None true
         (st0 (Some (fun _ _ => ok_page [JNum 0])))) = Diverge.
Proof. by vm_compute. Qed.

(** A negative sync interval makes the sleep of every cycle raise; the
    cycle still ends normally, after the back-off. *)
Example negative_interval_backs_off :
  let E := {| API := fun _ _ _ => None; config_per_page := 100;
              config_sync_interval := -1; stop_requested := fun _ _ => false |} in
  let run := polling_cycle E 1 (st_running slow_server noop_callback) in
  fst run = Ret tt /\ sleeps (world (snd run)) = [60].
Proof. by vm_compute. Qed.

(** * Further facts *)

(** ** What a run of the pager looks like *)

Section RunFacts.

Variable E : Env.

(** The trace of a call of [get_orders] is empty, or that of a run of the
    loop from page 1. *)
Lemma get_orders_trace fuel params paginate_all s out s' es :
  get_orders E fuel params paginate_all s = (out, s') ->
  requests (world s') = requests (world s) ++ es ->
  (es = [] /\ out = Ret None) \/
  pager_run params paginate_all (config_per_page E) 1 [] es out.
Proof.
  intros Hrun Hes.
  apply get_orders_run in Hrun as [(_ & -> & ->)|(h & es' & _ & Hes' & Hpr & _)].
  - left. split; [|done]. apply (f_equal length) in Hes.
    rewrite length_app in Hes. destruct es; [done|cbn in Hes; lia].
  - right. rewrite Hes in Hes'. by apply app_inv_head in Hes' as <-.
Qed.

Lemma pager_run_pages params paginate_all per_page page all_orders es out :
  pager_run params paginate_all per_page page all_orders es out ->
  forall i c o, es !! i = Some (c, o) ->
  c = orders_call params per_page (page + Z.of_nat i).
Proof.
  induction 1 as [page acc|page acc o Hp|page acc o Hp|page acc o es out Hp Hrun IH];
    intros i c o' Hi.
  - done.
  - destruct i; [|done]. injection Hi as <- <-. by rewrite Z.add_0_r.
  - destruct i; [|done]. injection Hi as <- <-. by rewrite Z.add_0_r.
  - destruct i as [|i].
    + injection Hi as <- <-. by rewrite Z.add_0_r.
    + rewrite (IH i c o' Hi). f_equal. lia.
Qed.

(** X1. [get_orders] lets no exception out, and touches nothing but the
    request log, the clock and the running flag: the log only grows, and the
    handle, the watermark, the callback, the deliveries and the sleeps are
    as before. *)
Theorem get_orders_frame fuel params paginate_all s :
  let run := get_orders E fuel params paginate_all s in
  (forall e, fst run <> Raise e) /\
  (exists es, requests (world (snd run)) = requests (world s) ++ es) /\
  api (self (snd run)) = api (self s) /\
  last_sync (self (snd run)) = last_sync (self s) /\
  on_order_update (self (snd run)) = on_order_update (self s) /\
  delivered (world (snd run)) = delivered (world s) /\
  sleeps (world (snd run)) = sleeps (world s).
Proof.
  cbv zeta. split; [apply get_orders_never_raises|].
  destruct (get_orders _ _ _ _ _) as [out s'] eqn:Hrun. cbn [snd].
  apply get_orders_run in Hrun as [(_ & _ & ->)|(h & es & _ & Hes & _ & Hkeep)].
  - split; [|done]. exists []. by rewrite app_nil_r.
  - split; [by exists es|done].
Qed.

(** X2. When the caller's parameters leave "page" and "per_page" alone,
    pages are asked for in order, from 1 on, one request each: the request
    number i+1 of a call goes to "orders" and carries page = i+1 and the
    configured per_page. *)
Theorem get_orders_asks_pages_in_order fuel params paginate_all s out s' es i c o :
  keeps_paging params ->
  get_orders E fuel params paginate_all s = (out, s') ->
  requests (world s') = requests (world s) ++ es ->
  es !! i = Some (c, o) ->
  endpoint c = "orders" /\
  exists q,
    query c = Some q /\
    q !! "page" = Some (PInt (Z.of_nat (S i))) /\
    q !! "per_page" = Some (PInt (config_per_page E)).
Proof.
  intros Hkeep Hrun Hes Hi.
  destruct (get_orders_trace _ _ _ _ _ _ _ Hrun Hes) as [[-> _]|Hpr]; [done|].
  rewrite (pager_run_pages _ _ _ _ _ _ _ Hpr i c o Hi).
  replace (1 + Z.of_nat i) with (Z.of_nat (S i)) by lia.
  split; [done|]. eexists. split; [done|].
  assert (Hbase : forall k,
            caller_value params k = None ->
            current_params params (config_per_page E) (Z.of_nat (S i)) !! k =
            current_params None (config_per_page E) (Z.of_nat (S i)) !! k).
  { intros k Hk. destruct params as [ps|]; [|done].
    unfold current_params. by apply lookup_union_r. }
  assert (Hcaller : caller_value params "page" = None /\
                    caller_value params "per_page" = None)
    by (by destruct params as [ps|]).
  destruct Hcaller as [Hpage Hpp]. rewrite (Hbase _ Hpage), (Hbase _ Hpp).
  unfold current_params. rewrite lookup_insert_ne by done.
  by rewrite !lookup_insert_eq.
Qed.

(** X3. Whatever the server, a list returned by [get_orders] is the records
    of the pages received during the call, page after page, nothing added,
    dropped or reordered. *)
Theorem get_orders_returns_pages_in_order fuel params paginate_all s l s' es :
  get_orders E fuel params paginate_all s = (Ret (Some l), s') ->
  requests (world s') = requests (world s) ++ es ->
  l = concat (map (fun e => page_records (snd e)) es).
Proof.
  intros Hrun Hes.
  destruct (get_orders_trace _ _ _ _ _ _ _ Hrun Hes) as [[_ [=]]|Hpr].
  apply (pager_run_returns_concat _ _ _ _ _ _ _ Hpr l eq_refl).
Qed.

Lemma pass_result_break_short per_page page all_orders o :
  fst (fst (pass_result true per_page page all_orders o)) = Break ->
  page_records o = [] \/ Z.of_nat (length (page_records o)) < per_page.
Proof.
  destruct o as [|r]; cbn; [by left|].
  destruct (status_code r =? 200); cbn; [|by left].
  destruct (body r) as [[| | | |[|x xs]|]|]; cbn; try by left.
  destruct (Z.ltb_spec (Z.of_nat (S (length xs))) per_page); cbn; [by right|done].
Qed.

Lemma pager_run_shape params paginate_all per_page page all_orders es out :
  pager_run params paginate_all per_page page all_orders es out ->
  forall r es1 c o, out = Ret r -> es = es1 ++ [(c, o)] ->
  Forall (fun e => paginate_all = true /\
                   transport_fails (snd e) = false /\ rejected (snd e) = false /\
                   per_page <= Z.of_nat (length (page_records (snd e)))) es1 /\
  (paginate_all = true ->
   page_records o = [] \/ Z.of_nat (length (page_records o)) < per_page).
Proof.
  induction 1 as [page acc|page acc o Hp|page acc o Hp|page acc o es out Hp Hrun IH];
    intros r es1 c o' Hout Hes.
  - done.
  - destruct es1 as [|e [|e' es1]]; try done. injection Hes as <- <-.
    split; [done|]. intros _. left. apply pass_result_none in Hp.
    destruct o as [|resp]; [done|]. cbn in Hp |- *.
    destruct (status_code resp =? 200); [|done].
    destruct (body resp); [done|done].
  - destruct es1 as [|e [|e' es1]]; try done. injection Hes as <- <-.
    split; [done|]. intros ->. by eapply pass_result_break_short.
  - destruct es1 as [|e es1].
    + cbn in Hes. injection Hes as _ _ ->. subst out. inversion Hrun.
    + injection Hes as <- ->.
      destruct (IH r es1 c o' Hout eq_refl) as [Hfull Hlast]. split; [|done].
      constructor; [|done].
      by apply pass_result_continue in Hp as (Hpa & Hrej & Htf & Hlen & _).
Qed.

(** X4. When [get_orders] returns, every page but the last one received was
    a full page (status 200, at least per_page records) fetched in
    fetch-all mode; and in fetch-all mode the last response carries no
    records or fewer than per_page: the call never stops on a full page. *)
Theorem get_orders_stops_on_short_page fuel params paginate_all s r s' es c o :
  get_orders E fuel params paginate_all s = (Ret r, s') ->
  requests (world s') = requests (world s) ++ es ++ [(c, o)] ->
  Forall (fun e => paginate_all = true /\
                   transport_fails (snd e) = false /\ rejected (snd e) = false /\
                   config_per_page E <= Z.of_nat (length (page_records (snd e)))) es /\
  (paginate_all = true ->
   page_records o = [] \/
   Z.of_nat (length (page_records o)) < config_per_page E).
Proof.
  intros Hrun Hes.
  destruct (get_orders_trace _ _ _ _ _ _ _ Hrun Hes) as [[Hnil _]|Hpr].
  - by destruct es.
  - by eapply pager_run_shape.
Qed.

Lemma pass_result_ends_data paginate_all per_page page all_orders o :
  ends_data o = true ->
  pass_result paginate_all per_page page all_orders o = (Break, page, all_orders).
Proof.
  destruct o as [|r]; cbn; [done|].
  destruct (status_code r =? 200); cbn; [|done].
  by destruct (body r) as [[| | | |[|x xs]|]|].
Qed.

Lemma pager_run_ends_data params paginate_all per_page page all_orders es out :
  pager_run params paginate_all per_page page all_orders es out ->
  forall es1 c o es2,
    es = es1 ++ (c, o) :: es2 -> ends_data o = true ->
    es2 = [] /\
    out = Ret (Some (all_orders ++ concat (map (fun e => page_records (snd e)) es1))).
Proof.
  induction 1 as [page acc|page acc o Hp|page acc o Hp|page acc o es out Hp Hrun IH];
    intros es1 c o' es2 Hes Hend.
  - by destruct es1.
  - destruct es1 as [|e [|e' es1]]; try done. injection Hes as <- <- <-.
    by rewrite (pass_result_ends_data _ _ _ _ _ Hend) in Hp.
  - destruct es1 as [|e [|e' es1]]; try done. injection Hes as <- <- <-.
    split; [done|]. rewrite (pass_result_ends_data _ _ _ _ _ Hend). cbn.
    by rewrite app_nil_r.
  - destruct es1 as [|e es1].
    + injection Hes as <- <- <-.
      by rewrite (pass_result_ends_data _ _ _ _ _ Hend) in Hp.
    + injection Hes as <- ->.
      apply pass_result_continue in Hp as (_ & _ & _ & _ & Hp).
      rewrite Hp in IH. cbn [snd] in IH.
      destruct (IH _ _ _ _ eq_refl Hend) as [-> ->]. split; [done|].
      cbn [map concat snd]. by rewrite app_assoc.
Qed.

(** X5. A status-200 response whose body is an empty array, or is not an
    array at all (an error object, null, a number), is taken for the end of
    the data: no further request is sent, nothing is raised, and the records
    of the pages before it are returned. *)
Theorem odd_body_ends_the_fetch fuel params paginate_all s out s' es1 c o es2 :
  get_orders E fuel params paginate_all s = (out, s') ->
  requests (world s') = requests (world s) ++ es1 ++ (c, o) :: es2 ->
  ends_data o = true ->
  es2 = [] /\
  out = Ret (Some (concat (map (fun e => page_records (snd e)) es1))).
Proof.
  intros Hrun Hes Hend.
  destruct (get_orders_trace _ _ _ _ _ _ _ Hrun Hes) as [[Hnil _]|Hpr].
  - by destruct es1.
  - by destruct (pager_run_ends_data _ _ _ _ _ _ _ Hpr _ _ _ _ eq_refl Hend) as [-> ->].
Qed.

End RunFacts.

Lemma get_orders_asks_pages_witness :
  let run := get_orders (env0 2) 9 None true (st0 (Some (paged_server five_orders))) in
  exists c o q,
    requests (world (snd run)) !! 2%nat = Some (c, o) /\
    query c = Some q /\ q !! "page" = Some (PInt 3).
Proof.
  cbv zeta. set (run := get_orders _ _ _ _ _).
  destruct (requests (world (snd run)) !! 2%nat) as [[c o]|] eqn:Hi; [|by vm_compute in Hi].
  destruct (get_orders_asks_pages_in_order (env0 2) 9 None true
              (st0 (Some (paged_server five_orders))) (fst run) (snd run)
              (requests (world (snd run))) 2 c o I (surjective_pairing run) eq_refl Hi)
    as (_ & q & Hq & Hpage & _).
  by exists c, o, q.
Defined.

Lemma get_orders_returns_pages_witness :
  let run := get_orders (env0 2) 9 None true (st0 (Some (paged_server five_orders))) in
  five_orders = concat (map (fun e => page_records (snd e)) (requests (world (snd run)))).
Proof.
  cbv zeta. set (run := get_orders _ _ _ _ _).
  refine (get_orders_returns_pages_in_order (env0 2) 9 None true
            (st0 (Some (paged_server five_orders))) five_orders (snd run)
            (requests (world (snd run))) _ eq_refl).
  by vm_compute.
Defined.

Lemma get_orders_stops_witness :
  Z.of_nat (length (page_records (result (ok_page [JNum 5])))) < 2.
Proof.
  set (run := get_orders (env0 2) 9 None true (st0 (Some (paged_server five_orders)))).
  destruct (get_orders_stops_on_short_page (env0 2) 9 None true
              (st0 (Some (paged_server five_orders))) (Some five_orders) (snd run)
              [(orders_call None 2 1, result (ok_page [JNum 1; JNum 2]));
               (orders_call None 2 2, result (ok_page [JNum 3; JNum 4]))]
              (orders_call None 2 3) (result (ok_page [JNum 5])))
    as [_ Hlast].
  - by vm_compute.
  - by vm_compute.
  - destruct (Hlast eq_refl) as [Hnil|Hshort]; [done|exact Hshort].
Defined.

Lemma odd_body_witness :
  fst (get_orders (env0 2) 9 None true (st0 (Some malformed_server))) =
  Ret (Some [JNum 1; JNum 2]).
Proof.
  set (run := get_orders _ _ _ _ _).
  refine (proj2 (odd_body_ends_the_fetch (env0 2) 9 None true
                   (st0 (Some malformed_server)) (fst run) (snd run)
                   [(orders_call None 2 1, result (ok_page [JNum 1; JNum 2]))]
                   (orders_call None 2 2)
                   (Responds {| status_code := 200;
                                body := Some (JObj [("code", JStr "rest_error")]) |})
                   [] _ _ _)).
  - apply surjective_pairing.
  - by vm_compute.
  - reflexivity.
Defined.

(** ** The request and the first page *)

Section RequestFacts.

Variable E : Env.

Lemma current_params_caller params per_page page k v :
  caller_value params k = Some v ->
  current_params params per_page page !! k = Some v.
Proof.
  destruct params as [ps|]; [|done]. cbn. intros Hk.
  unfold current_params. by apply lookup_union_Some_l.
Qed.

Lemma current_params_default params per_page page k :
  caller_value params k = None ->
  current_params params per_page page !! k = current_params None per_page page !! k.
Proof.
  destruct params as [ps|]; [|done]. cbn. intros Hk.
  unfold current_params. by apply lookup_union_r.
Qed.

(** X6. Every request of [get_orders] goes to "orders" and carries each of
    the caller's parameters as given: on a key the caller sets, the caller's
    value replaces the default.  Where the caller is silent the request has
    the configured per_page, orderby=date, order=desc and status=any. *)
Theorem get_orders_request_parameters fuel params paginate_all s out s' es c o :
  get_orders E fuel params paginate_all s = (out, s') ->
  requests (world s') = requests (world s) ++ es ->
  (c, o) ∈ es ->
  endpoint c = "orders" /\
  exists q,
    query c = Some q /\
    (forall k v, caller_value params k = Some v -> q !! k = Some v) /\
    (caller_value params "per_page" = None ->
     q !! "per_page" = Some (PInt (config_per_page E))) /\
    (caller_value params "orderby" = None -> q !! "orderby" = Some (PStr "date")) /\
    (caller_value params "order" = None -> q !! "order" = Some (PStr "desc")) /\
    (caller_value params "status" = None -> q !! "status" = Some (PStr "any")).
Proof.
  intros Hrun Hes Hin.
  destruct (get_orders_trace _ _ _ _ _ _ _ _ Hrun Hes) as [[-> _]|Hpr];
    [by apply elem_of_nil in Hin|].
  destruct (pager_run_calls _ _ _ _ _ _ _ Hpr c o Hin) as [k ->].
  split; [done|]. eexists. split; [done|].
  split; [intros; by apply current_params_caller|].
  repeat split; intros Hk; by rewrite current_params_default.
Qed.

Lemma loop_exit_first_page per_page o :
  loop_exit (pass_result false per_page 1 [] o) =
  if transport_fails o then None else Some (page_records o).
Proof.
  destruct o as [|r]; cbn; [done|].
  destruct (status_code r =? 200); cbn; [|done].
  by destruct (body r) as [[| | | |[|x xs]|]|].
Qed.

(** X7. With a handle and [paginate_all] false, [get_orders] sends one
    request, that of the loop's first pass (page 1, unless the caller's
    parameters name a page), and returns what the answer holds: None when
    the transport raised, else the records of the page, however many the
    server has beyond it (the empty list for a rejected, empty or odd
    response). *)
Theorem get_orders_first_page fuel params s h :
  api (self s) = Some h ->
  let c := orders_call params (config_per_page E) 1 in
  let o := result (h (requests (world s)) c) in
  exists s',
    get_orders E (S fuel) params false s =
      (Ret (if transport_fails o then None else Some (page_records o)), s') /\
    requests (world s') = requests (world s) ++ [(c, o)].
Proof.
  intros Hapi. cbv zeta.
  rewrite (get_orders_first_page_only E fuel params s h Hapi). cbv zeta.
  rewrite loop_exit_first_page. eexists. split; [done|].
  by rewrite blocked_requests.
Qed.

(** X8. A per_page given by the caller reaches the server, but the test for
    the last page still uses the configured page size.  So when the caller
    asks for pages of q records, q below the configured size, a fetch-all
    from a paging server stops after one request with the first q records. *)
Theorem caller_page_size_cuts_fetch_all fuel ps (p q : nat) data s :
  ps !! "per_page" = Some (PInt (Z.of_nat q)) ->
  ps !! "page" = None ->
  (q < p)%nat ->
  config_per_page E = Z.of_nat p ->
  api (self s) = Some (paged_server data) ->
  exists s' o,
    get_orders E (S fuel) (Some ps) true s = (Ret (Some (take q data)), s') /\
    requests (world s') =
      requests (world s) ++ [(orders_call (Some ps) (Z.of_nat p) 1, o)].
Proof.
  intros Hpp Hpage Hq Hp Hapi.
  unfold get_orders, bind, get_self. rewrite Hapi, Hp.
  cbn [get_orders_loop]. unfold bind. rewrite get_orders_pass_eq. cbv zeta.
  assert (Hreply : forall trace,
            paged_server data trace (orders_call (Some ps) (Z.of_nat p) 1) =
            ok_page (take q data)).
  { intros trace. unfold paged_server, orders_call. cbn [query].
    rewrite (current_params_caller (Some ps) _ _ "per_page" _ Hpp).
    rewrite (current_params_default (Some ps) _ _ "page" Hpage).
    unfold current_params. rewrite lookup_insert_ne by done.
    rewrite lookup_insert_eq. unfold page_slice.
    by rewrite Nat2Z.id. }
  rewrite Hreply. cbn [ok_page result elapsed pass_result status_code body].
  change (200 =? 200) with true. cbv iota.
  assert (Hlen : (length (take q data) <= q)%nat) by (rewrite length_take; lia).
  destruct (take q data) as [|x xs] eqn:Htake.
  - eexists _, _. split; [done|]. by rewrite blocked_requests.
  - cbn [negb].
    destruct (Z.ltb_spec (Z.of_nat (length (x :: xs))) (Z.of_nat p)); [|lia].
    eexists _, _. split; [done|]. by rewrite blocked_requests.
Qed.

(** X9. Without a handle none of the three fetch methods sends anything:
    each returns None and leaves manager and world exactly as they were. *)
Theorem no_handle_no_fetch fuel params paginate_all T s :
  api (self s) = None ->
  get_orders E fuel params paginate_all s = (Ret None, s) /\
  fetch_orders_since E fuel T s = (Ret None, s) /\
  fetch_last_day_orders E fuel s = (Ret None, s).
Proof.
  intros Hapi.
  assert (Hget : forall ps pa, get_orders E fuel ps pa s = (Ret None, s)).
  { intros ps pa. unfold get_orders, bind, get_self. by rewrite Hapi. }
  split; [apply Hget|]. split.
  - unfold fetch_orders_since, try_catch, bind, dt_sub.
    destruct (representable _); cbn [ret raise]; [by rewrite Hget|done].
  - unfold fetch_last_day_orders, try_catch, bind, now, dt_sub.
    destruct (representable _); cbn [ret raise]; [by rewrite Hget|done].
Qed.

(** X10. A boundary that is no datetime: when the watermark minus five
    minutes (for [fetch_orders_since]) or now minus one day (for
    [fetch_last_day_orders]) falls outside the datetime range, the overflow
    is caught; the method returns None and sends nothing, handle or not. *)
Theorem boundary_overflow_gives_none fuel T s :
  (representable (T - 300000000) = false ->
   fetch_orders_since E fuel T s = (Ret None, s)) /\
  (representable (clock (world s) - 86400000000) = false ->
   fetch_last_day_orders E fuel s = (Ret None, s)).
Proof.
  split; intros Hrep.
  - unfold fetch_orders_since, try_catch, bind, dt_sub.
    change (minutes 5) with 300000000. by rewrite Hrep.
  - unfold fetch_last_day_orders, try_catch, bind, now, dt_sub.
    change (days 1) with 86400000000. by rewrite Hrep.
Qed.

End RequestFacts.

(** ** initialize, again *)

Section ProbeFacts.

Variable E : Env.

(** X11. When the client cannot be constructed, [initialize] returns false
    and changes nothing: nothing is sent and a handle stored earlier stays.
    When it can, the new handle replaces whatever was stored, exactly one
    request is sent (the probe of "system_status", without parameters), and
    the watermark, the callback and the logs of deliveries and sleeps are
    untouched. *)
Theorem initialize_probes_once url key secret s :
  (API E url key secret = None ->
   initialize E url key secret s = (Ret false, s)) /\
  (forall h, API E url key secret = Some h ->
     let s' := snd (initialize E url key secret s) in
     api (self s') = Some h /\
     requests (world s') =
       requests (world s) ++ [(probe_call, result (h (requests (world s)) probe_call))] /\
     last_sync (self s') = last_sync (self s) /\
     on_order_update (self s') = on_order_update (self s) /\
     delivered (world s') = delivered (world s) /\
     sleeps (world s') = sleeps (world s)).
Proof.
  unfold initialize, try_catch, bind, new_api, api_get. split.
  - by intros ->.
  - intros h ->. cbn.
    destruct (result (h _ _)); cbn;
      by rewrite blocked_api, blocked_requests, blocked_last_sync,
        blocked_callback, blocked_delivered, blocked_sleeps.
Qed.

End ProbeFacts.

(** ** One cycle, step by step *)

Section CycleEffects.

Variable E : Env.

Lemma transport_fails_no_records o :
  transport_fails o = true -> page_records o = [].
Proof.
  destruct o as [|r]; cbn; [done|].
  destruct (status_code r =? 200); [|done].
  by destruct (body r).
Qed.

(** [fetch_orders_since] sends nothing, or sends [since_call] and reads
    the result off the answer. *)
Lemma fetch_orders_since_effect fuel T s :
  ((api (self s) = None \/ representable (T - 300000000) = false) /\
   fetch_orders_since E (S fuel) T s = (Ret None, s)) \/
  (exists h,
     api (self s) = Some h /\ representable (T - 300000000) = true /\
     let c := since_call (config_per_page E) T in
     let r := h (requests (world s)) c in
     fetch_orders_since E (S fuel) T s =
       (Ret (if transport_fails (result r) then None
             else Some (page_records (result r))),
        blocked E (elapsed r) (log_request c (result r) s))).
Proof.
  unfold fetch_orders_since, try_catch, bind, dt_sub.
  change (minutes 5) with 300000000.
  destruct (representable _) eqn:Hrep; cbn [ret raise]; [|left; auto].
  destruct (api (self s)) as [h|] eqn:Hapi.
  - right. exists h. split; [done|]. split; [done|]. cbv zeta.
    rewrite (get_orders_first_page_only E fuel _ s h Hapi). cbv zeta.
    by rewrite loop_exit_first_page.
  - left. split; [auto|]. unfold get_orders, bind, get_self. by rewrite Hapi.
Qed.

(** The end of a cycle: the configured sleep, or the back-off when the
    configured length is negative. *)
Lemma cycle_sleep s :
  exists d,
    (d = config_sync_interval E \/ d = 60) /\ 0 <= d /\
    try_catch (sleep E (config_sync_interval E)) (fun _ => sleep E 60) s =
      (Ret tt, blocked E (seconds d) (log_sleep d s)).
Proof.
  unfold try_catch, sleep.
  destruct (Z.ltb_spec (config_sync_interval E) 0).
  - exists 60. split; [by right|]. split; [lia|done].
  - exists (config_sync_interval E). split; [by left|]. split; [lia|done].
Qed.

(** A cycle, once its fetch has returned. *)
Lemma polling_cycle_unfold fuel s r s1 :
  fetch_orders_since E fuel (last_sync (self s)) s = (Ret r, s1) ->
  polling_cycle E fuel s =
  if truthy r then
    let batch := default [] r in
    let run := on_order_update (self s1) (delivered (world s1)) batch in
    let s2 := blocked E (cb_elapsed run) (log_delivery batch s1) in
    if cb_raises run then
      if is_exception (cb_exn run) then sleep E 60 s2 else (Raise (cb_exn run), s2)
    else try_catch (sleep E (config_sync_interval E)) (fun _ => sleep E 60)
           (set_last_sync (clock (world s2)) s2)
  else try_catch (sleep E (config_sync_interval E)) (fun _ => sleep E 60) s1.
Proof.
  intros Hfetch. unfold polling_cycle, polling_try, try_catch, bind, get_self.
  rewrite Hfetch. destruct (truthy r); cbv zeta.
  - unfold call_on_order_update, now. destruct (cb_raises _); [done|].
    by destruct (sleep E (config_sync_interval E) _) as [[| |] ?].
  - cbn [ret]. by destruct (sleep E (config_sync_interval E) _) as [[| |] ?].
Qed.

(** What a cycle leaves in the logs: one request at most, the batch of
    that request if it has records, and one sleep, unless the cycle is left
    by an exception outside [Exception], which comes before any sleep. *)
Lemma polling_cycle_logs fuel s :
  exists o s' es sl,
    polling_cycle E (S fuel) s = (o, s') /\
    api (self s') = api (self s) /\
    on_order_update (self s') = on_order_update (self s) /\
    requests (world s') = requests (world s) ++ es /\
    delivered (world s') = delivered (world s) ++ batches_of es /\
    sleeps (world s') = sleeps (world s) ++ sl /\
    ((o = Ret tt /\
      exists d, sl = [d] /\ (d = config_sync_interval E \/ d = 60)) \/
     (exists e, o = Raise e /\ is_exception e = false /\ sl = [])) /\
    ((es = [] /\
      (api (self s) = None \/
       representable (last_sync (self s) - 300000000) = false)) \/
     (exists h,
        api (self s) = Some h /\
        representable (last_sync (self s) - 300000000) = true /\
        es = [(since_call (config_per_page E) (last_sync (self s)),
               result (h (requests (world s))
                         (since_call (config_per_page E) (last_sync (self s)))))])).
Proof.
  destruct (fetch_orders_since_effect fuel (last_sync (self s)) s)
    as [[Hwhy Hfetch]|(h & Hapi & Hrep & Hfetch)].
  - rewrite (polling_cycle_unfold _ _ _ _ Hfetch). cbn [truthy].
    destruct (cycle_sleep s) as (d & Hd & _ & ->).
    exists (Ret tt), (blocked E (seconds d) (log_sleep d s)), [], [d].
    rewrite blocked_api, blocked_callback, blocked_requests, blocked_delivered,
      blocked_sleeps. cbn. rewrite !app_nil_r. repeat split; eauto.
  - cbv zeta in Hfetch. rewrite (polling_cycle_unfold _ _ _ _ Hfetch).
    set (c := since_call _ _) in *. set (r := h _ c) in *.
    set (s1 := blocked E (elapsed r) _) in *.
    assert (Hs1 : api (self s1) = api (self s) /\
                  on_order_update (self s1) = on_order_update (self s) /\
                  requests (world s1) = requests (world s) ++ [(c, result r)] /\
                  delivered (world s1) = delivered (world s) /\
                  sleeps (world s1) = sleeps (world s)).
    { unfold s1. by rewrite blocked_api, blocked_callback, blocked_requests,
        blocked_delivered, blocked_sleeps. }
    destruct Hs1 as (Ha1 & Hc1 & Hr1 & Hd1 & Hsl1).
    destruct (transport_fails (result r)) eqn:Htf;
      [|destruct (page_records (result r)) as [|x xs] eqn:Hrec]; cbn [truthy].
    + apply transport_fails_no_records in Htf.
      destruct (cycle_sleep s1) as (d & Hd & _ & ->).
      eexists (Ret tt), _, [(c, result r)], [d]. split; [done|].
      rewrite blocked_api, blocked_callback, blocked_requests, blocked_delivered,
        blocked_sleeps. cbn. unfold batches_of. cbn. rewrite Htf. cbn.
      rewrite app_nil_r, Ha1, Hc1, Hr1, Hd1, Hsl1. repeat split; eauto 7.
    + destruct (cycle_sleep s1) as (d & Hd & _ & ->).
      eexists (Ret tt), _, [(c, result r)], [d]. split; [done|].
      rewrite blocked_api, blocked_callback, blocked_requests, blocked_delivered,
        blocked_sleeps. cbn. unfold batches_of. cbn. rewrite Hrec. cbn.
      rewrite app_nil_r, Ha1, Hc1, Hr1, Hd1, Hsl1. repeat split; eauto 7.
    + cbn [default from_option id]. cbv zeta.
      set (run := on_order_update _ _ _). set (s2 := blocked E (cb_elapsed run) _).
      assert (Hs2 : api (self s2) = api (self s) /\
                    on_order_update (self s2) = on_order_update (self s) /\
                    requests (world s2) = requests (world s) ++ [(c, result r)] /\
                    delivered (world s2) = delivered (world s) ++ [x :: xs] /\
                    sleeps (world s2) = sleeps (world s)).
      { unfold s2. rewrite blocked_api, blocked_callback, blocked_requests,
          blocked_delivered, blocked_sleeps. cbn. by rewrite Ha1, Hc1, Hr1, Hd1, Hsl1. }
      destruct Hs2 as (Ha2 & Hc2 & Hr2 & Hd2 & Hsl2).
      assert (Hb : batches_of [(c, result r)] = [x :: xs])
        by (unfold batches_of; cbn; by rewrite Hrec).
      destruct (cb_raises run); [destruct (is_exception (cb_exn run)) eqn:Hexc|].
      * eexists (Ret tt), _, [(c, result r)], [60]. split; [done|].
        rewrite blocked_api, blocked_callback, blocked_requests, blocked_delivered,
          blocked_sleeps.
        cbn [log_sleep set_last_sync world self sleeps delivered requests api
             on_order_update].
        rewrite Hb, Ha2, Hc2, Hr2, Hd2, Hsl2. repeat split; eauto 7.
      * eexists (Raise (cb_exn run)), s2, [(c, result r)], []. split; [done|].
        rewrite Hb, Ha2, Hc2, Hr2, Hd2, Hsl2, app_nil_r. repeat split; eauto 7.
      * destruct (cycle_sleep (set_last_sync (clock (world s2)) s2))
          as (d & Hd & _ & ->).
        eexists (Ret tt), _, [(c, result r)], [d]. split; [done|].
        rewrite blocked_api, blocked_callback, blocked_requests, blocked_delivered,
          blocked_sleeps.
        cbn [log_sleep set_last_sync world self sleeps delivered requests api
             on_order_update].
        rewrite Hb, Ha2, Hc2, Hr2, Hd2, Hsl2. repeat split; eauto 7.
Qed.

(** With time moving on, a cycle moves the clock on, and a watermark that
    is not ahead of the clock neither goes back nor gets ahead. *)
Lemma polling_cycle_watermark fuel s :
  time_moves_on s ->
  let s' := snd (polling_cycle E (S fuel) s) in
  clock (world s) <= clock (world s') /\
  (last_sync (self s) <= clock (world s) ->
   last_sync (self s) <= last_sync (self s') /\
   last_sync (self s') <= clock (world s')).
Proof.
  intros [Hapi_time Hcb_time]. cbv zeta.
  destruct (fetch_orders_since_effect fuel (last_sync (self s)) s)
    as [[Hwhy Hfetch]|(h & Hapi & Hrep & Hfetch)].
  - rewrite (polling_cycle_unfold _ _ _ _ Hfetch). cbn [truthy].
    destruct (cycle_sleep s) as (d & _ & Hd & ->). cbn [snd].
    rewrite blocked_clock, blocked_last_sync. cbn. unfold seconds. lia.
  - cbv zeta in Hfetch. rewrite (polling_cycle_unfold _ _ _ _ Hfetch).
    set (c := since_call _ _) in *. set (r := h _ c) in *.
    set (s1 := blocked E (elapsed r) _) in *.
    assert (Hs1 : clock (world s1) = clock (world s) + elapsed r /\
                  last_sync (self s1) = last_sync (self s) /\
                  on_order_update (self s1) = on_order_update (self s)).
    { unfold s1. by rewrite blocked_clock, blocked_last_sync, blocked_callback. }
    destruct Hs1 as (Hc1 & Hl1 & Hcb1).
    pose proof (Hapi_time h (requests (world s)) c Hapi) as Hel. fold r in Hel.
    destruct (truthy _); cbv zeta.
    + set (run := on_order_update _ _ _). set (s2 := blocked E (cb_elapsed run) _).
      assert (Hrun : 0 <= cb_elapsed run) by (unfold run; rewrite Hcb1; apply Hcb_time).
      assert (Hs2 : clock (world s2) = clock (world s1) + cb_elapsed run /\
                    last_sync (self s2) = last_sync (self s1)).
      { unfold s2. by rewrite blocked_clock, blocked_last_sync. }
      destruct Hs2 as (Hc2 & Hl2).
      destruct (cb_raises run); [destruct (is_exception (cb_exn run))|].
      * change (sleep E 60 s2) with (Ret tt, blocked E (seconds 60) (log_sleep 60 s2)).
        cbn [snd]. rewrite blocked_clock, blocked_last_sync. cbn. unfold seconds. lia.
      * cbn [snd]. lia.
      * destruct (cycle_sleep (set_last_sync (clock (world s2)) s2))
          as (d & _ & Hd & ->). cbn [snd].
        rewrite blocked_clock, blocked_last_sync. cbn. unfold seconds. lia.
    + destruct (cycle_sleep s1) as (d & _ & Hd & ->). cbn [snd].
      rewrite blocked_clock, blocked_last_sync. cbn. unfold seconds. lia.
Qed.

(** A cycle whose callback raises leaves the watermark alone. *)
Lemma polling_cycle_failed_delivery fuel s h :
  api (self s) = Some h ->
  representable (last_sync (self s) - 300000000) = true ->
  let c := since_call (config_per_page E) (last_sync (self s)) in
  let o := result (h (requests (world s)) c) in
  page_records o <> [] ->
  cb_raises (on_order_update (self s) (delivered (world s)) (page_records o)) = true ->
  last_sync (self (snd (polling_cycle E (S fuel) s))) = last_sync (self s).
Proof.
  intros Hapi Hrep. cbv zeta. intros Hrec Hcb.
  destruct (fetch_orders_since_effect fuel (last_sync (self s)) s)
    as [[[Hnone|Hbad] _]|(h' & Hapi' & _ & Hfetch)]; [congruence..|].
  rewrite Hapi in Hapi'. injection Hapi' as <-.
  cbv zeta in Hfetch. rewrite (polling_cycle_unfold _ _ _ _ Hfetch).
  set (c := since_call _ _) in *. set (r := h _ c) in *.
  destruct (transport_fails (result r)) eqn:Htf;
    [by apply transport_fails_no_records in Htf|].
  destruct (page_records (result r)) as [|x xs] eqn:Hpg; [done|].
  cbn [truthy default from_option id]. cbv zeta.
  rewrite blocked_callback, blocked_delivered. cbn [log_request self world delivered].
  rewrite Hcb. destruct (is_exception _).
  - change (sleep E 60 ?s2) with (Ret tt, blocked E (seconds 60) (log_sleep 60 s2)).
    cbn [snd]. rewrite blocked_last_sync. cbn [log_sleep self last_sync].
    rewrite blocked_last_sync. cbn [log_delivery self last_sync].
    by rewrite blocked_last_sync.
  - cbn [snd]. rewrite blocked_last_sync. cbn [log_delivery self last_sync].
    by rewrite blocked_last_sync.
Qed.

End CycleEffects.

(** ** The loop, over any number of cycles *)

Section LoopEffects.

Variable E : Env.

Lemma batches_of_app es1 es2 :
  batches_of (es1 ++ es2) = batches_of es1 ++ batches_of es2.
Proof. unfold batches_of. by rewrite map_app, List.filter_app. Qed.

Lemma batches_of_nonempty es : Forall (fun batch => batch <> []) (batches_of es).
Proof.
  induction es as [|[c o] es IH]; [constructor|].
  unfold batches_of in *. cbn. destruct (page_records o); cbn; [done|].
  by constructor.
Qed.

Lemma time_moves_on_kept s s' :
  api (self s') = api (self s) ->
  on_order_update (self s') = on_order_update (self s) ->
  time_moves_on s -> time_moves_on s'.
Proof. intros Ha Hc [H1 H2]. split; intros *; rewrite ?Ha, ?Hc; auto. Qed.

Lemma polling_loop_logs fuel cycles : forall s,
  let run := _polling_loop E cycles (S fuel) s in
  exists es sl,
    requests (world (snd run)) = requests (world s) ++ es /\
    sleeps (world (snd run)) = sleeps (world s) ++ sl /\
    delivered (world (snd run)) = delivered (world s) ++ batches_of es /\
    (length sl <= cycles)%nat /\
    Forall (fun d => d = config_sync_interval E \/ d = 60) sl /\
    (length es <= length sl + 1)%nat /\
    ((forall e, fst run <> Raise e) -> (length es <= length sl)%nat).
Proof.
  induction cycles as [|cycles IH]; intros s; cbv zeta.
  - exists [], []. cbn. rewrite !app_nil_r. repeat split; done || lia.
  - cbn [_polling_loop]. unfold bind, get_self.
    destruct (sync_running (self s)).
    + destruct (polling_cycle_logs E fuel s)
        as (o & s1 & es1 & sl1 & -> & _ & _ & Hr1 & Hd1 & Hs1 & Hend & Hes1).
      assert (Hone : (length es1 <= 1)%nat)
        by (destruct Hes1 as [[-> _]|(h & _ & _ & ->)]; cbn; lia).
      destruct Hend as [[-> (d & -> & Hd)]|(e & -> & _ & ->)].
      * destruct (IH s1) as (es2 & sl2 & Hr2 & Hs2 & Hd2 & Hcyc & Hall & Hlen & Hok).
        exists (es1 ++ es2), (d :: sl2).
        rewrite Hr2, Hs2, Hd2, Hr1, Hs1, Hd1, batches_of_app, <- !app_assoc.
        rewrite length_app. cbn [length].
        repeat split; try done; [lia|by constructor|lia|].
        intros Hnr. specialize (Hok Hnr). lia.
      * exists es1, []. cbn [fst snd length]. rewrite Hr1, Hs1, Hd1.
        split; [done|]. split; [done|]. split; [done|]. split; [lia|].
        split; [done|]. split; [lia|]. intros Hnr. by destruct (Hnr e).
    + exists [], []. cbn. rewrite !app_nil_r. repeat split; done || lia.
Qed.

(** X12. The loop never polls without pausing: over a run of the loop
    there is one request at most and one sleep per cycle, every sleep lasts
    the configured interval or the sixty seconds of the back-off, and
    there are no more requests than sleeps, unless the run was ended by an
    exception that left the loop, whose cycle had its request and no sleep. *)
Theorem polling_loop_paces fuel cycles s :
  let run := _polling_loop E cycles (S fuel) s in
  exists es sl,
    requests (world (snd run)) = requests (world s) ++ es /\
    sleeps (world (snd run)) = sleeps (world s) ++ sl /\
    (length sl <= cycles)%nat /\
    Forall (fun d => d = config_sync_interval E \/ d = 60) sl /\
    (length es <= length sl + 1)%nat /\
    ((forall e, fst run <> Raise e) -> (length es <= length sl)%nat).
Proof.
  cbv zeta.
  destruct (polling_loop_logs fuel cycles s)
    as (es & sl & ? & ? & _ & ? & ? & ? & ?).
  by exists es, sl.
Qed.

(** X13. Over a run of the loop the consumer is handed exactly the record
    lists of the responses received that hold any record, each one once
    and in the order received, whether or not the callback raised on it;
    it is never handed an empty list. *)
Theorem polling_loop_delivers_batches fuel cycles s :
  let s' := snd (_polling_loop E cycles (S fuel) s) in
  exists es,
    requests (world s') = requests (world s) ++ es /\
    delivered (world s') = delivered (world s) ++ batches_of es /\
    Forall (fun batch => batch <> []) (batches_of es).
Proof.
  cbv zeta.
  destruct (polling_loop_logs fuel cycles s) as (es & sl & ? & _ & ? & _).
  exists es. split; [done|]. split; [done|]. apply batches_of_nonempty.
Qed.

(** X14. As long as no request and no callback takes a negative time, the
    loop moves the clock on, and a watermark that starts not later than the
    clock never goes back and never gets ahead of the clock, after however
    many cycles. *)
Theorem watermark_never_goes_back fuel cycles : forall s,
  time_moves_on s ->
  last_sync (self s) <= clock (world s) ->
  let s' := snd (_polling_loop E cycles (S fuel) s) in
  clock (world s) <= clock (world s') /\
  last_sync (self s) <= last_sync (self s') /\
  last_sync (self s') <= clock (world s').
Proof.
  induction cycles as [|cycles IH]; intros s Htime Hle; cbv zeta; [cbn; lia|].
  cbn [_polling_loop]. unfold bind, get_self.
  destruct (sync_running (self s)); [|cbn; lia].
  pose proof (polling_cycle_watermark E fuel s Htime) as Hw. cbv zeta in Hw.
  destruct (polling_cycle_logs E fuel s)
    as (o & s1 & es1 & sl1 & Hcycle & Ha & Hc & _).
  rewrite Hcycle in Hw |- *. cbn [snd] in Hw.
  destruct Hw as [Hclock Hls]. destruct (Hls Hle) as [Hls1 Hls2].
  destruct o as [[]|e|]; [|cbn; lia..].
  destruct (IH s1 (time_moves_on_kept _ _ Ha Hc Htime) Hls2) as (? & ? & ?).
  lia.
Qed.

(** X15. After a cycle in which the callback raised on a batch, the next
    cycle sends the very same request (same modified_after bound), and the
    records it gets back, if any, are handed to the callback in turn. *)
Theorem failed_delivery_is_asked_again fuel s h :
  api (self s) = Some h ->
  representable (last_sync (self s) - 300000000) = true ->
  let c := since_call (config_per_page E) (last_sync (self s)) in
  let o1 := result (h (requests (world s)) c) in
  let o2 := result (h (requests (world s) ++ [(c, o1)]) c) in
  page_records o1 <> [] ->
  cb_raises (on_order_update (self s) (delivered (world s)) (page_records o1)) = true ->
  let s1 := snd (polling_cycle E (S fuel) s) in
  let s2 := snd (polling_cycle E (S fuel) s1) in
  requests (world s2) = requests (world s) ++ [(c, o1); (c, o2)] /\
  delivered (world s2) =
    delivered (world s) ++ page_records o1 :: batches_of [(c, o2)].
Proof.
  intros Hapi Hrep. cbv zeta. intros Hrec Hcb.
  pose proof (polling_cycle_failed_delivery E fuel s h Hapi Hrep Hrec Hcb) as Hls.
  destruct (polling_cycle_logs E fuel s)
    as (out1 & s1 & es1 & sl1 & Hc1 & Ha1 & _ & Hr1 & Hd1 & _ & _ & Hes1).
  rewrite Hc1 in Hls |- *. cbn [snd] in Hls |- *.
  destruct Hes1 as [[_ [?|?]]|(h1 & Hh1 & _ & ->)]; [congruence..|].
  rewrite Hapi in Hh1. injection Hh1 as <-.
  destruct (polling_cycle_logs E fuel s1)
    as (out2 & s2 & es2 & sl2 & Hc2 & _ & _ & Hr2 & Hd2 & _ & _ & Hes2).
  rewrite Hc2. cbn [snd].
  destruct Hes2 as [[_ [?|?]]|(h2 & Hh2 & _ & ->)]; [congruence..|].
  rewrite Ha1, Hapi in Hh2. injection Hh2 as <-.
  rewrite Hls, Hr1 in Hr2, Hd2. rewrite Hr2, Hd2, Hd1, <- !app_assoc.
  split; [done|]. f_equal. unfold batches_of at 1. cbn.
  by destruct (page_records _).
Qed.

End LoopEffects.

(** ** What a stop request does to a cycle in flight *)

Section StopFacts.

Variable E : Env.

Lemma flag_blind_ret {A} (a : A) : flag_blind (ret a).
Proof. by intros s t Hst. Qed.

Lemma flag_blind_raise {A} e : flag_blind (@raise A e).
Proof. by intros s t Hst. Qed.

Lemma flag_blind_bind {A B} (m : M A) (k : A -> M B) :
  flag_blind m -> (forall a, flag_blind (k a)) -> flag_blind (bind m k).
Proof.
  intros Hm Hk s t Hst. unfold bind. destruct (Hm s t Hst) as [Ho Hs].
  destruct (m s) as [[a|e|] s1], (m t) as [[a'|e'|] t1]; cbn in Ho, Hs;
    simplify_eq; first [done|by apply Hk].
Qed.

Lemma flag_blind_try_catch {A} (m : M A) (handler : exn -> M A) :
  flag_blind m -> (forall e, flag_blind (handler e)) ->
  flag_blind (try_catch m handler).
Proof.
  intros Hm Hh s t Hst. unfold try_catch. destruct (Hm s t Hst) as [Ho Hs].
  destruct (m s) as [[a|e|] s1], (m t) as [[a'|e'|] t1]; cbn in Ho, Hs;
    simplify_eq; first [done|destruct (is_exception _); [by apply Hh|done]].
Qed.

Lemma blocked_same_but_flag dt s t :
  same_but_flag s t -> same_but_flag (blocked E dt s) (blocked E dt t).
Proof.
  intros (Ha & Hc & Hl & Hw). unfold blocked. rewrite Hw.
  destruct (stop_requested E _ _); unfold same_but_flag; cbn;
    by rewrite Ha, Hc, Hl, Hw.
Qed.

Lemma api_get_flag_blind h c : flag_blind (api_get E h c).
Proof.
  intros s t Hst. unfold api_get. destruct Hst as (Ha & Hc & Hl & Hw).
  rewrite Hw. set (r := h _ c).
  assert (same_but_flag (blocked E (elapsed r) (log_request c (result r) s))
                        (blocked E (elapsed r) (log_request c (result r) t))).
  { apply blocked_same_but_flag. unfold same_but_flag. cbn. by rewrite Ha, Hc, Hl, Hw. }
  by destruct (result r).
Qed.

Lemma sleep_flag_blind secs : flag_blind (sleep E secs).
Proof.
  intros s t Hst. unfold sleep. destruct (secs <? 0); [done|]. cbn.
  split; [done|]. apply blocked_same_but_flag.
  destruct Hst as (Ha & Hc & Hl & Hw). unfold same_but_flag. cbn.
  by rewrite Ha, Hc, Hl, Hw.
Qed.

Lemma call_on_order_update_flag_blind orders :
  flag_blind (call_on_order_update E orders).
Proof.
  intros s t Hst. unfold call_on_order_update.
  destruct Hst as (Ha & Hc & Hl & Hw). rewrite Hc, Hw.
  set (run := on_order_update _ _ _).
  assert (same_but_flag (blocked E (cb_elapsed run) (log_delivery orders s))
                        (blocked E (cb_elapsed run) (log_delivery orders t))).
  { apply blocked_same_but_flag. unfold same_but_flag. cbn. by rewrite Ha, Hc, Hl, Hw. }
  by destruct (cb_raises run).
Qed.

Lemma get_orders_loop_flag_blind h params paginate_all per_page fuel :
  forall page all_orders,
    flag_blind (get_orders_loop E fuel h params paginate_all per_page page all_orders).
Proof.
  induction fuel as [|fuel IH]; intros page all_orders; [by intros s t Hst|].
  cbn [get_orders_loop]. apply flag_blind_bind.
  - unfold get_orders_pass. apply flag_blind_try_catch;
      [|intros; apply flag_blind_ret].
    apply flag_blind_bind; [apply api_get_flag_blind|]. intros resp.
    destruct (status_code resp =? 200); [|apply flag_blind_ret].
    apply flag_blind_bind.
    { unfold json_of. destruct (body resp);
        [apply flag_blind_ret|apply flag_blind_raise]. }
    intros [| | | |[|x xs]|]; try apply flag_blind_ret.
    destruct (negb paginate_all); [apply flag_blind_ret|].
    destruct (_ <? per_page); apply flag_blind_ret.
  - intros [[[] page'] all']; [apply IH|apply flag_blind_ret..].
Qed.

Lemma fetch_orders_since_flag_blind fuel T : flag_blind (fetch_orders_since E fuel T).
Proof.
  unfold fetch_orders_since.
  apply flag_blind_try_catch; [|intros; apply flag_blind_ret].
  apply flag_blind_bind.
  - unfold dt_sub. destruct (representable _);
      [apply flag_blind_ret|apply flag_blind_raise].
  - intros t s1 s2 Hst. unfold get_orders, bind, get_self.
    rewrite (proj1 Hst).
    destruct (api (self s2)); [by apply get_orders_loop_flag_blind|done].
Qed.

Lemma polling_try_from_flag_blind fuel T : flag_blind (polling_try_from E fuel T).
Proof.
  unfold polling_try_from.
  apply flag_blind_bind; [apply fetch_orders_since_flag_blind|]. intros updated.
  apply flag_blind_bind; [|intros; apply sleep_flag_blind].
  destruct (truthy updated); [|apply flag_blind_ret].
  apply flag_blind_bind; [apply call_on_order_update_flag_blind|]. intros _.
  apply flag_blind_bind.
  { intros s t Hst. pose proof Hst as (_ & _ & _ & Hw). unfold now. cbn.
    by rewrite Hw. }
  intros now_ s t (Ha & Hc & Hl & Hw). split; [done|].
  unfold same_but_flag. cbn. by rewrite Ha, Hc, Hw.
Qed.

Lemma polling_cycle_flag_blind fuel : flag_blind (polling_cycle E fuel).
Proof.
  unfold polling_cycle.
  apply flag_blind_try_catch; [|intros; apply sleep_flag_blind].
  intros s t Hst.
  change (polling_try E fuel s) with (polling_try_from E fuel (last_sync (self s)) s).
  change (polling_try E fuel t) with (polling_try_from E fuel (last_sync (self t)) t).
  destruct Hst as (Ha & Hc & Hl & Hw). rewrite Hl.
  by apply polling_try_from_flag_blind.
Qed.

End StopFacts.

(** ** Relations kept by the loop *)

Section LoopPreserves.

Variable E : Env.
Variable R : State -> State -> Prop.
Hypothesis R_refl : forall s, R s s.
Hypothesis R_trans : forall s1 s2 s3, R s1 s2 -> R s2 s3 -> R s1 s3.
Hypothesis R_blocked : forall dt s, R s (blocked E dt s).
Hypothesis R_request : forall c o s, R s (log_request c o s).
Hypothesis R_delivery : forall batch s, R s (log_delivery batch s).
Hypothesis R_sleep : forall secs s, R s (log_sleep secs s).
Hypothesis R_watermark : forall t s, R s (set_last_sync t s).

Lemma sleep_preserves secs : preserves R (sleep E secs).
Proof.
  intros s o s'. unfold sleep. destruct (secs <? 0); intros [= <- <-]; eauto.
Qed.

Lemma get_orders_loop_preserves h params paginate_all per_page fuel :
  forall page all_orders,
    preserves R (get_orders_loop E fuel h params paginate_all per_page page all_orders).
Proof.
  induction fuel as [|fuel IH]; intros page all_orders;
    [by apply preserves_diverge|].
  cbn [get_orders_loop]. apply preserves_bind; [done| |].
  - intros s o s'. rewrite get_orders_pass_eq. cbv zeta. intros [= <- <-]. eauto.
  - intros [[[] page'] all']; [apply IH|by apply preserves_ret..].
Qed.

Lemma fetch_orders_since_preserves fuel T : preserves R (fetch_orders_since E fuel T).
Proof.
  unfold fetch_orders_since.
  apply preserves_try_catch; [done| |intros; by apply preserves_ret].
  apply preserves_bind; [done| |].
  - unfold dt_sub. destruct (representable _);
      [by apply preserves_ret|by apply preserves_raise].
  - intros t s o s'. unfold get_orders, bind, get_self.
    destruct (api (self s)); [apply get_orders_loop_preserves|].
    intros [= <- <-]. apply R_refl.
Qed.

Lemma polling_cycle_preserves fuel : preserves R (polling_cycle E fuel).
Proof.
  unfold polling_cycle.
  apply preserves_try_catch; [done| |intros; apply sleep_preserves].
  unfold polling_try. apply preserves_bind; [done| |].
  { intros s o s' [= <- <-]. apply R_refl. }
  intros me. apply preserves_bind; [done|apply fetch_orders_since_preserves|].
  intros updated. apply preserves_bind; [done| |intros; apply sleep_preserves].
  destruct (truthy updated); [|by apply preserves_ret].
  apply preserves_bind; [done| |].
  { intros s o s'. unfold call_on_order_update.
    destruct (cb_raises _); intros [= <- <-]; eauto. }
  intros _. apply preserves_bind; [done| |].
  { intros s o s' [= <- <-]. apply R_refl. }
  intros t s o s' [= <- <-]. apply R_watermark.
Qed.

Lemma polling_loop_preserves fuel cycles :
  preserves R (_polling_loop E cycles fuel).
Proof.
  induction cycles as [|cycles IH]; [by apply preserves_diverge|].
  cbn [_polling_loop]. intros s o s'. unfold bind at 1. unfold get_self.
  destruct (sync_running (self s)); [|intros [= <- <-]; apply R_refl].
  apply preserves_bind; [done|apply polling_cycle_preserves|by intros].
Qed.

End LoopPreserves.

Section StopAndFrame.

Variable E : Env.

(** X16. A stop request does not cut a cycle short: a cycle run with the
    flag just cleared by [stop_sync] ends the same way and leaves the same
    world (requests, deliveries, sleeps, clock) and the same watermark as
    the cycle run with the flag as it was; and it ends with the flag still
    cleared, so the loop stops at its next check. *)
Theorem cycle_ignores_stop fuel s :
  let a := polling_cycle E fuel s in
  let b := polling_cycle E fuel (snd (stop_sync s)) in
  fst a = fst b /\
  world (snd a) = world (snd b) /\
  last_sync (self (snd a)) = last_sync (self (snd b)) /\
  sync_running (self (snd b)) = false.
Proof.
  cbv zeta.
  destruct (polling_cycle_flag_blind E fuel s (snd (stop_sync s)))
    as (Ho & _ & _ & Hl & Hw); [done|].
  split; [done|]. split; [done|]. split; [done|].
  destruct (polling_cycle E fuel (snd (stop_sync s))) as [o s'] eqn:Hrun.
  refine (polling_cycle_preserves E stays_stopped _ _ _ _ _ _ _ fuel _ _ _ Hrun eq_refl);
    unfold stays_stopped; try done; eauto.
  intros dt s0. unfold blocked. by destruct (stop_requested E _ _).
Qed.

(** X17. The loop never replaces the client handle or the callback and
    never sets the running flag, over any number of cycles: once the flag
    is cleared only [start_sync] brings it back. *)
Theorem polling_loop_frame fuel cycles s :
  let s' := snd (_polling_loop E cycles fuel s) in
  api (self s') = api (self s) /\
  on_order_update (self s') = on_order_update (self s) /\
  (sync_running (self s) = false -> sync_running (self s') = false).
Proof.
  cbv zeta. destruct (_polling_loop E cycles fuel s) as [o s'] eqn:Hrun.
  refine (polling_loop_preserves E
            (fun s s' => api (self s') = api (self s) /\
                         on_order_update (self s') = on_order_update (self s) /\
                         stays_stopped s s')
            _ _ _ _ _ _ _ fuel cycles _ _ _ Hrun); unfold stays_stopped; try done.
  - intros s1 s2 s3 (Ha & Hc & Hf) (Ha' & Hc' & Hf').
    rewrite Ha', Hc', Ha, Hc. auto.
  - intros dt s0. rewrite blocked_api, blocked_callback. split; [done|].
    split; [done|]. unfold blocked. by destruct (stop_requested E _ _).
Qed.

End StopAndFrame.

(** ** The further facts at work *)

Lemma get_orders_request_parameters_witness :
  let c := orders_call (Some completed_only) 2 1 in
  exists q, query c = Some q /\
            q !! "status" = Some (PStr "completed") /\
            q !! "orderby" = Some (PStr "date").
Proof.
  cbv zeta.
  set (run := get_orders (env0 2) 9 (Some completed_only) true
                (st0 (Some (paged_server five_orders)))).
  destruct (get_orders_request_parameters (env0 2) 9 (Some completed_only) true
              (st0 (Some (paged_server five_orders))) (fst run) (snd run)
              (requests (world (snd run)))
              (orders_call (Some completed_only) 2 1)
              (result (ok_page [JNum 1; JNum 2])))
    as (_ & q & Hq & Hcaller & _ & Horderby & _).
  - apply surjective_pairing.
  - reflexivity.
  - apply (list_elem_of_lookup_2 _ 0%nat). by vm_compute.
  - exists q. split; [exact Hq|]. split; [by apply Hcaller|by apply Horderby].
Defined.

Lemma get_orders_first_page_witness :
  fst (get_orders (env0 2) 1 None false (st0 (Some (paged_server five_orders)))) =
  Ret (Some [JNum 1; JNum 2]).
Proof.
  destruct (get_orders_first_page (env0 2) 0 None
              (st0 (Some (paged_server five_orders))) (paged_server five_orders)
              eq_refl) as (s' & Hrun & _).
  rewrite Hrun. reflexivity.
Defined.

Lemma caller_page_size_witness :
  fst (get_orders (env0 2) 9 (Some one_per_page) true
         (st0 (Some (paged_server five_orders)))) = Ret (Some [JNum 1]).
Proof.
  destruct (caller_page_size_cuts_fetch_all (env0 2) 8 one_per_page 2 1 five_orders
              (st0 (Some (paged_server five_orders))) eq_refl eq_refl
              (le_n 2) eq_refl eq_refl) as (s' & o & Hrun & _).
  rewrite Hrun. reflexivity.
Defined.

Lemma no_handle_witness :
  fetch_last_day_orders (env0 2) 9 (st0 None) = (Ret None, st0 None).
Proof.
  exact (proj2 (proj2 (no_handle_no_fetch (env0 2) 9 None true 0 (st0 None) eq_refl))).
Defined.

Lemma boundary_overflow_witness :
  fetch_orders_since (env0 2) 9 0 st_dawn = (Ret None, st_dawn) /\
  fetch_last_day_orders (env0 2) 9 st_dawn = (Ret None, st_dawn).
Proof.
  destruct (boundary_overflow_gives_none (env0 2) 9 0 st_dawn) as [Hsince Hday].
  split; [exact (Hsince eq_refl)|exact (Hday eq_refl)].
Defined.

Lemma initialize_probes_once_witness :
  initialize (env0 2) "https://shop.example" "ck" "cs" (st0 (Some slow_server)) =
    (Ret false, st0 (Some slow_server)) /\
  requests (world (snd (initialize env_unavailable "https://shop.example" "ck" "cs"
                          (st0 None)))) =
    [(probe_call, result (status_only 503))].
Proof.
  split.
  - exact (proj1 (initialize_probes_once (env0 2) "https://shop.example" "ck" "cs"
                    (st0 (Some slow_server))) eq_refl).
  - destruct (proj2 (initialize_probes_once env_unavailable
                       "https://shop.example" "ck" "cs" (st0 None))
                unavailable_server eq_refl) as (_ & Hreq & _).
    exact Hreq.
Defined.

Lemma slow_server_time_moves_on cb :
  (forall earlier batch, 0 <= cb_elapsed (cb earlier batch)) ->
  time_moves_on (st_running slow_server cb).
Proof.
  intros Hcb. split; [|exact Hcb].
  intros h trace c [= <-]. unfold slow_server, scripted_server.
  destruct (length trace) as [|[|n]]; by cbn.
Defined.

Lemma watermark_never_goes_back_witness :
  let s := st_running slow_server noop_callback in
  let s' := snd (_polling_loop env_stop_later 5 1 s) in
  last_sync (self s) <= last_sync (self s') /\
  last_sync (self s') <= clock (world s').
Proof.
  cbv zeta.
  destruct (watermark_never_goes_back env_stop_later 0 5
              (st_running slow_server noop_callback)) as (_ & Hback & Hahead).
  - apply slow_server_time_moves_on. by intros.
  - by vm_compute.
  - split; [exact Hback|exact Hahead].
Defined.

Lemma failed_delivery_witness :
  let s := st_running slow_server failing_consumer in
  let s2 := snd (polling_cycle (env0 100) 1 (snd (polling_cycle (env0 100) 1 s))) in
  fst <$> requests (world s2) =
    [since_call 100 (days 737999); since_call 100 (days 737999)] /\
  delivered (world s2) = [[JNum 1]].
Proof.
  cbv zeta.
  destruct (failed_delivery_is_asked_again (env0 100) 0
              (st_running slow_server failing_consumer) slow_server
              eq_refl eq_refl) as [Hreq Hdel].
  - done.
  - reflexivity.
  - rewrite Hreq, Hdel. split; reflexivity.
Defined.

(** ** From construction to the first poll *)

Section FirstPoll.

Variable E : Env.

Lemma init_state_of cb w s0 :
  __init__ cb w = Ret s0 ->
  api (self s0) = None /\ sync_running (self s0) = false /\
  last_sync (self s0) = clock w - 86400000000 /\ world s0 = w.
Proof.
  unfold __init__. change (days 1) with 86400000000.
  destruct (representable _); [|done]. by intros [= <-].
Qed.

Lemma initialize_effect url key secret s h :
  API E url key secret = Some h ->
  let s' := snd (initialize E url key secret s) in
  api (self s') = Some h /\
  last_sync (self s') = last_sync (self s) /\
  requests (world s') =
    requests (world s) ++ [(probe_call, result (h (requests (world s)) probe_call))].
Proof.
  intros Hnew. unfold initialize, try_catch, bind, new_api, api_get.
  rewrite Hnew. cbn.
  destruct (result (h _ _)); cbn;
    by rewrite blocked_api, blocked_requests, blocked_last_sync.
Qed.

(** X18. A manager is built with its watermark one day before the clock
    of that moment.  So once a client has been constructed, whatever the
    probe said and however long it took, the first cycle asks for the
    orders modified after the time of construction minus one day and five
    minutes; the probe and that request are all that has been sent. *)
Theorem first_poll_window cb w s0 url key secret h fuel :
  __init__ cb w = Ret s0 ->
  API E url key secret = Some h ->
  representable (clock w - 86400000000 - 300000000) = true ->
  let s1 := snd (initialize E url key secret s0) in
  let s2 := snd (polling_cycle E (S fuel) s1) in
  exists o,
    requests (world s2) =
    requests w ++
      [(probe_call, result (h (requests w) probe_call));
       (since_call (config_per_page E) (clock w - 86400000000), o)].
Proof.
  intros Hinit Hnew Hrep. cbv zeta.
  destruct (init_state_of _ _ _ Hinit) as (_ & _ & Hls0 & Hw0).
  destruct (initialize_effect url key secret s0 h Hnew) as (Ha1 & Hls1 & Hr1).
  set (s1 := snd (initialize E url key secret s0)) in *.
  rewrite Hls0 in Hls1. rewrite Hw0 in Hr1.
  destruct (polling_cycle_logs E fuel s1)
    as (out & s2 & es & sl & -> & _ & _ & Hr2 & _ & _ & _ & Hes).
  cbn [snd]. rewrite Hls1 in Hes.
  destruct Hes as [[_ [?|?]]|(h' & _ & _ & ->)]; [congruence..|].
  eexists. by rewrite Hr2, Hr1, <- app_assoc.
Qed.

End FirstPoll.

Lemma first_poll_witness :
  let s1 := snd (initialize env_unavailable "https://shop.example" "ck" "cs" (st0 None)) in
  let s2 := snd (polling_cycle env_unavailable 1 s1) in
  fst <$> requests (world s2) = [probe_call; since_call 100 (days 737999)].
Proof.
  cbv zeta.
  destruct (first_poll_window env_unavailable None w0 (st0 None)
              "https://shop.example" "ck" "cs" unavailable_server 0
              eq_refl eq_refl eq_refl) as [o Hreq].
  rewrite Hreq. reflexivity.
Defined.
